(** * Attendance sessions of absensi-management-pt-eja

    A shallow embedding of the attendance routes (registerRoutes), of the
    duration utility (client/src/lib/attendance.ts) and of the part of the
    ECMAScript [Date] object they rely on, with the properties of the
    specification stated over them.

    Instants are [Z] milliseconds since the epoch, as the time value of a
    JavaScript [Date]. *)

From Stdlib Require Import ZArith List String Lia Bool Permutation DecimalString.
From Stdlib Require Import Ascii DecimalPos DecimalZ.
Import ListNotations.
Open Scope string_scope.
Open Scope Z_scope.

(** ** The ECMAScript [Date] operations used by the routes *)

Module JSDate.

Definition msPerSecond : Z := 1000.
Definition msPerMinute : Z := 60000.
Definition msPerHour : Z := 3600000.
Definition msPerDay : Z := 86400000.

(** Asia/Jakarta is UTC+7 all year round, and has been since 1964. *)
Definition jakartaOffset : Z := 7 * msPerHour.

(** Template-literal rendering of an integer. *)
Definition string_of_Z (z : Z) : string := NilZero.string_of_int (Z.to_int z).

(** [s.padStart(2, '0')] *)
Definition padStart2 (s : string) : string :=
  if (String.length s <? 2)%nat then "0" ++ s else s.

(** Year, month (1..12) and day of month of a day number counted from
    1970-01-01, in the proleptic Gregorian calendar. *)
Definition civil_from_days (z0 : Z) : Z * Z * Z :=
  let z := z0 + 719468 in
  let era := z / 146097 in
  let doe := z - era * 146097 in
  let yoe := (doe - doe / 1460 + doe / 36524 - doe / 146096) / 365 in
  let y := yoe + era * 400 in
  let doy := doe - (365 * yoe + yoe / 4 - yoe / 100) in
  let mp := (5 * doy + 2) / 153 in
  let d := doy - (153 * mp + 2) / 5 + 1 in
  let m := if mp <? 10 then mp + 3 else mp - 9 in
  (if m <=? 2 then y + 1 else y, m, d).

Definition YearFromDay (day : Z) : Z := fst (fst (civil_from_days day)).
Definition MonthFromDay (day : Z) : Z := snd (fst (civil_from_days day)) - 1.
Definition DateFromDay (day : Z) : Z := snd (civil_from_days day).

Definition Day (t : Z) : Z := t / msPerDay.
Definition TimeWithinDay (t : Z) : Z := t mod msPerDay.

(** The [YYYY-MM-DD] rendering of a calendar day, as lines 95-98 of the
    routes build it and as [toLocaleDateString('en-CA')] prints it. *)
Definition formatYMD (day : Z) : string :=
  string_of_Z (YearFromDay day) ++ "-" ++
  padStart2 (string_of_Z (MonthFromDay day + 1)) ++ "-" ++
  padStart2 (string_of_Z (DateFromDay day)).

(** The local time zone of the host, as ECMAScript's LocalTZA: the
    offset east of UTC in milliseconds in effect at a UTC instant, and
    the offset with which a local time value is read.  A local time the
    host's clock skips or shows twice is read with the offset before the
    transition. *)
Record Zone : Type := mkZone {
  offsetAtUTC : Z -> Z;
  offsetAtLocal : Z -> Z
}.

(** A zone without transitions, the same offset all year round; an
    offset stands for that zone. *)
Definition fixedZone (offset : Z) : Zone :=
  mkZone (fun _ => offset) (fun _ => offset).

Coercion fixedZone : Z >-> Zone.

(** Europe/Helsinki during 2024: UTC+2, and UTC+3 from 2024-03-31 01:00
    UTC (local 03:00 becomes 04:00) to 2024-10-27 01:00 UTC (local 04:00
    becomes 03:00). *)
Definition helsinki2024 : Zone :=
  mkZone
    (fun t =>
       if (1711846800000 <=? t) && (t <? 1729990800000)
       then 3 * msPerHour else 2 * msPerHour)
    (fun w =>
       if w <? 1711846800000 + 3 * msPerHour then 2 * msPerHour
       else if w <? 1729990800000 + 3 * msPerHour then 3 * msPerHour
            else 2 * msPerHour).

(** The getters and setters below read a [Date] in the local time zone
    [tz] of the host. *)
Section Local.
Variable tz : Zone.

Definition LocalTime (t : Z) : Z := t + offsetAtUTC tz t.
Definition UTC (t : Z) : Z := t - offsetAtLocal tz t.

Definition getHours (d : Z) : Z := TimeWithinDay (LocalTime d) / msPerHour.
Definition getMinutes (d : Z) : Z := (LocalTime d mod msPerHour) / msPerMinute.
Definition getFullYear (d : Z) : Z := YearFromDay (Day (LocalTime d)).
Definition getMonth (d : Z) : Z := MonthFromDay (Day (LocalTime d)).
Definition getDate (d : Z) : Z := DateFromDay (Day (LocalTime d)).

(** [d.setDate(dt)]: MakeDay(year, month, dt) is the day number of
    the first of the month plus [dt - 1]; the time within the day is
    kept. *)
Definition setDate (d dt : Z) : Z :=
  let t := LocalTime d in
  UTC ((Day t - (DateFromDay (Day t) - 1) + (dt - 1)) * msPerDay + TimeWithinDay t).

(** [d.setHours(h, m, s, ms)] *)
Definition setHours (d h m s ms : Z) : Z :=
  let t := LocalTime d in
  UTC (Day t * msPerDay + (h * msPerHour + m * msPerMinute + s * msPerSecond + ms)).

(** [new Date(str)] for a date-time string without zone: the fields
    are read as local time.  The string is represented by the wall
    clock reading it spells out. *)
Definition parseLocal (wall : Z) : Z := UTC wall.

(** The host's clock can show the local time [wall]: reading it and
    displaying the result gives [wall] back. *)
Definition readsBack (wall : Z) : Prop := LocalTime (UTC wall) = wall.
End Local.

(** [d.toLocaleString("en-US", { timeZone: "Asia/Jakarta" })]: the wall
    clock of Jakarta at [d], printed to the second. *)
Definition toLocaleString_Jakarta (d : Z) : Z :=
  (d + jakartaOffset) / msPerSecond * msPerSecond.

(** [d.toLocaleDateString('en-CA', { timeZone: 'Asia/Jakarta' })] *)
Definition toLocaleDateString_Jakarta (d : Z) : string :=
  formatYMD (Day (d + jakartaOffset)).

End JSDate.
Import JSDate.

(** ** The Jakarta day-boundary clock (routes, lines 87-99) *)

(** [new Date(now.toLocaleString("en-US", { timeZone: "Asia/Jakarta" }))] *)
Definition jakartaTimeOf (tz : Zone) (now : Z) : Z :=
  parseLocal tz (toLocaleString_Jakarta now).

Definition getJakartaDate (tz : Zone) (now : Z) : string :=
  let jakartaTime := jakartaTimeOf tz now in
  let jakartaTime :=
    if getHours tz jakartaTime <? 4
    then setDate tz jakartaTime (getDate tz jakartaTime - 1)
    else jakartaTime in
  let y := getFullYear tz jakartaTime in
  let m := padStart2 (string_of_Z (getMonth tz jakartaTime + 1)) in
  let d := padStart2 (string_of_Z (getDate tz jakartaTime)) in
  string_of_Z y ++ "-" ++ m ++ "-" ++ d.

(** The specification's reading of the clock: the instant in Jakarta
    local time, its calendar day, hour and minute of the day. *)
Definition jakartaDay (t : Z) : Z := (t + jakartaOffset) / msPerDay.
Definition jakartaHour (t : Z) : Z := ((t + jakartaOffset) mod msPerDay) / msPerHour.
Definition jakartaMinuteOfDay (t : Z) : Z := ((t + jakartaOffset) mod msPerDay) / msPerMinute.

(** The instant at which the Jakarta wall clock shows [h:m] on calendar
    day [day]. *)
Definition jakartaInstant (day h m : Z) : Z :=
  day * msPerDay + h * msPerHour + m * msPerMinute - jakartaOffset.

(** [resolveBusinessDate] in the specification's words: the previous
    calendar day when the local hour is below 4, the local day otherwise. *)
Definition resolveBusinessDay (t : Z) : Z :=
  if jakartaHour t <? 4 then jakartaDay t - 1 else jakartaDay t.

(** ** The attendance table (shared/schema.ts)

    Timestamp columns are nullable instants, [date] holds the
    [YYYY-MM-DD] business date, [sessionNumber] and [status] carry the
    column defaults [1] and ["absent"] when a row is inserted without
    them. *)

Record Attendance : Type := mkAttendance {
  id : Z;
  userId : Z;
  date : string;
  checkIn : option Z;
  checkInPhoto : option string;
  checkInLocation : option string;
  breakStart : option Z;
  breakStartPhoto : option string;
  breakStartLocation : option string;
  breakEnd : option Z;
  breakEndPhoto : option string;
  breakEndLocation : option string;
  checkOut : option Z;
  checkOutPhoto : option string;
  checkOutLocation : option string;
  shift : option string;
  sessionNumber : Z;
  status : string;
  notes : option string;
  permitExitAt : option Z;
  permitResumeAt : option Z
}.

(** One [column: value] entry of the object literal handed to
    [createAttendance] or [updateAttendance]. *)
Inductive Column : Type :=
| Set_checkIn (v : Z)
| Set_checkInPhoto (v : string)
| Set_checkInLocation (v : string)
| Set_breakStart (v : Z)
| Set_breakStartPhoto (v : string)
| Set_breakStartLocation (v : string)
| Set_breakEnd (v : Z)
| Set_breakEndPhoto (v : string)
| Set_breakEndLocation (v : string)
| Set_checkOut (v : Z)
| Set_checkOutPhoto (v : string)
| Set_checkOutLocation (v : string)
| Set_shift (v : string)
| Set_sessionNumber (v : Z)
| Set_status (v : string)
| Set_notes (v : string)
| Set_permitExitAt (v : Z)
| Set_permitResumeAt (v : Z).

Definition assign (c : Column) (r : Attendance) : Attendance :=
  match c with
  | Set_checkIn v =>
      mkAttendance (id r) (userId r) (date r) (Some v) (checkInPhoto r)
        (checkInLocation r) (breakStart r) (breakStartPhoto r)
        (breakStartLocation r) (breakEnd r) (breakEndPhoto r)
        (breakEndLocation r) (checkOut r) (checkOutPhoto r)
        (checkOutLocation r) (shift r) (sessionNumber r) (status r)
        (notes r) (permitExitAt r) (permitResumeAt r)
  | Set_checkInPhoto v =>
      mkAttendance (id r) (userId r) (date r) (checkIn r) (Some v)
        (checkInLocation r) (breakStart r) (breakStartPhoto r)
        (breakStartLocation r) (breakEnd r) (breakEndPhoto r)
        (breakEndLocation r) (checkOut r) (checkOutPhoto r)
        (checkOutLocation r) (shift r) (sessionNumber r) (status r)
        (notes r) (permitExitAt r) (permitResumeAt r)
  | Set_checkInLocation v =>
      mkAttendance (id r) (userId r) (date r) (checkIn r) (checkInPhoto r)
        (Some v) (breakStart r) (breakStartPhoto r)
        (breakStartLocation r) (breakEnd r) (breakEndPhoto r)
        (breakEndLocation r) (checkOut r) (checkOutPhoto r)
        (checkOutLocation r) (shift r) (sessionNumber r) (status r)
        (notes r) (permitExitAt r) (permitResumeAt r)
  | Set_breakStart v =>
      mkAttendance (id r) (userId r) (date r) (checkIn r) (checkInPhoto r)
        (checkInLocation r) (Some v) (breakStartPhoto r)
        (breakStartLocation r) (breakEnd r) (breakEndPhoto r)
        (breakEndLocation r) (checkOut r) (checkOutPhoto r)
        (checkOutLocation r) (shift r) (sessionNumber r) (status r)
        (notes r) (permitExitAt r) (permitResumeAt r)
  | Set_breakStartPhoto v =>
      mkAttendance (id r) (userId r) (date r) (checkIn r) (checkInPhoto r)
        (checkInLocation r) (breakStart r) (Some v)
        (breakStartLocation r) (breakEnd r) (breakEndPhoto r)
        (breakEndLocation r) (checkOut r) (checkOutPhoto r)
        (checkOutLocation r) (shift r) (sessionNumber r) (status r)
        (notes r) (permitExitAt r) (permitResumeAt r)
  | Set_breakStartLocation v =>
      mkAttendance (id r) (userId r) (date r) (checkIn r) (checkInPhoto r)
        (checkInLocation r) (breakStart r) (breakStartPhoto r)
        (Some v) (breakEnd r) (breakEndPhoto r) (breakEndLocation r)
        (checkOut r) (checkOutPhoto r) (checkOutLocation r)
        (shift r) (sessionNumber r) (status r) (notes r)
        (permitExitAt r) (permitResumeAt r)
  | Set_breakEnd v =>
      mkAttendance (id r) (userId r) (date r) (checkIn r) (checkInPhoto r)
        (checkInLocation r) (breakStart r) (breakStartPhoto r)
        (breakStartLocation r) (Some v) (breakEndPhoto r)
        (breakEndLocation r) (checkOut r) (checkOutPhoto r)
        (checkOutLocation r) (shift r) (sessionNumber r) (status r)
        (notes r) (permitExitAt r) (permitResumeAt r)
  | Set_breakEndPhoto v =>
      mkAttendance (id r) (userId r) (date r) (checkIn r) (checkInPhoto r)
        (checkInLocation r) (breakStart r) (breakStartPhoto r)
        (breakStartLocation r) (breakEnd r) (Some v)
        (breakEndLocation r) (checkOut r) (checkOutPhoto r)
        (checkOutLocation r) (shift r) (sessionNumber r) (status r)
        (notes r) (permitExitAt r) (permitResumeAt r)
  | Set_breakEndLocation v =>
      mkAttendance (id r) (userId r) (date r) (checkIn r) (checkInPhoto r)
        (checkInLocation r) (breakStart r) (breakStartPhoto r)
        (breakStartLocation r) (breakEnd r) (breakEndPhoto r)
        (Some v) (checkOut r) (checkOutPhoto r) (checkOutLocation r)
        (shift r) (sessionNumber r) (status r) (notes r)
        (permitExitAt r) (permitResumeAt r)
  | Set_checkOut v =>
      mkAttendance (id r) (userId r) (date r) (checkIn r) (checkInPhoto r)
        (checkInLocation r) (breakStart r) (breakStartPhoto r)
        (breakStartLocation r) (breakEnd r) (breakEndPhoto r)
        (breakEndLocation r) (Some v) (checkOutPhoto r)
        (checkOutLocation r) (shift r) (sessionNumber r) (status r)
        (notes r) (permitExitAt r) (permitResumeAt r)
  | Set_checkOutPhoto v =>
      mkAttendance (id r) (userId r) (date r) (checkIn r) (checkInPhoto r)
        (checkInLocation r) (breakStart r) (breakStartPhoto r)
        (breakStartLocation r) (breakEnd r) (breakEndPhoto r)
        (breakEndLocation r) (checkOut r) (Some v)
        (checkOutLocation r) (shift r) (sessionNumber r) (status r)
        (notes r) (permitExitAt r) (permitResumeAt r)
  | Set_checkOutLocation v =>
      mkAttendance (id r) (userId r) (date r) (checkIn r) (checkInPhoto r)
        (checkInLocation r) (breakStart r) (breakStartPhoto r)
        (breakStartLocation r) (breakEnd r) (breakEndPhoto r)
        (breakEndLocation r) (checkOut r) (checkOutPhoto r) (Some v)
        (shift r) (sessionNumber r) (status r) (notes r)
        (permitExitAt r) (permitResumeAt r)
  | Set_shift v =>
      mkAttendance (id r) (userId r) (date r) (checkIn r) (checkInPhoto r)
        (checkInLocation r) (breakStart r) (breakStartPhoto r)
        (breakStartLocation r) (breakEnd r) (breakEndPhoto r)
        (breakEndLocation r) (checkOut r) (checkOutPhoto r)
        (checkOutLocation r) (Some v) (sessionNumber r) (status r)
        (notes r) (permitExitAt r) (permitResumeAt r)
  | Set_sessionNumber v =>
      mkAttendance (id r) (userId r) (date r) (checkIn r) (checkInPhoto r)
        (checkInLocation r) (breakStart r) (breakStartPhoto r)
        (breakStartLocation r) (breakEnd r) (breakEndPhoto r)
        (breakEndLocation r) (checkOut r) (checkOutPhoto r)
        (checkOutLocation r) (shift r) v (status r) (notes r)
        (permitExitAt r) (permitResumeAt r)
  | Set_status v =>
      mkAttendance (id r) (userId r) (date r) (checkIn r) (checkInPhoto r)
        (checkInLocation r) (breakStart r) (breakStartPhoto r)
        (breakStartLocation r) (breakEnd r) (breakEndPhoto r)
        (breakEndLocation r) (checkOut r) (checkOutPhoto r)
        (checkOutLocation r) (shift r) (sessionNumber r) v (notes r)
        (permitExitAt r) (permitResumeAt r)
  | Set_notes v =>
      mkAttendance (id r) (userId r) (date r) (checkIn r) (checkInPhoto r)
        (checkInLocation r) (breakStart r) (breakStartPhoto r)
        (breakStartLocation r) (breakEnd r) (breakEndPhoto r)
        (breakEndLocation r) (checkOut r) (checkOutPhoto r)
        (checkOutLocation r) (shift r) (sessionNumber r) (status r)
        (Some v) (permitExitAt r) (permitResumeAt r)
  | Set_permitExitAt v =>
      mkAttendance (id r) (userId r) (date r) (checkIn r) (checkInPhoto r)
        (checkInLocation r) (breakStart r) (breakStartPhoto r)
        (breakStartLocation r) (breakEnd r) (breakEndPhoto r)
        (breakEndLocation r) (checkOut r) (checkOutPhoto r)
        (checkOutLocation r) (shift r) (sessionNumber r) (status r)
        (notes r) (Some v) (permitResumeAt r)
  | Set_permitResumeAt v =>
      mkAttendance (id r) (userId r) (date r) (checkIn r) (checkInPhoto r)
        (checkInLocation r) (breakStart r) (breakStartPhoto r)
        (breakStartLocation r) (breakEnd r) (breakEndPhoto r)
        (breakEndLocation r) (checkOut r) (checkOutPhoto r)
        (checkOutLocation r) (shift r) (sessionNumber r) (status r)
        (notes r) (permitExitAt r) (Some v)
  end.

Definition assignAll (cs : list Column) (r : Attendance) : Attendance :=
  fold_left (fun acc c => assign c acc) cs r.

(** A row holding only the column defaults. *)
Definition defaultRow (newId user : Z) (day : string) : Attendance :=
  mkAttendance newId user day None None None None None None None None None
    None None None None 1 "absent" None None None.

(** ** The duration aggregator (client/src/lib/attendance.ts) *)

(** date-fns [differenceInMinutes(dateLeft, dateRight)]: the number of
    full minutes between the two instants, truncated toward zero. *)
Definition differenceInMinutes (dateLeft dateRight : Z) : Z :=
  Z.quot (dateLeft - dateRight) msPerMinute.

Definition calculateDuration (start finish : option Z) : Z :=
  match start, finish with
  | Some s, Some e => differenceInMinutes e s
  | _, _ => 0
  end.

Record DailyTotal : Type := mkDailyTotal {
  totalWorkMins : Z;
  totalBreakMins : Z;
  netWorkMins : Z
}.

(** The body of the [forEach] callback, acting on the two running
    totals. *)
Definition accumulate (totals : Z * Z) (record : Attendance) : Z * Z :=
  let sessionWork := calculateDuration (checkIn record) (checkOut record) in
  let sessionWork :=
    match permitExitAt record, permitResumeAt record with
    | Some _, Some _ =>
        let permitMins :=
          calculateDuration (permitExitAt record) (permitResumeAt record) in
        Z.max 0 (sessionWork - permitMins)
    | _, _ => sessionWork
    end in
  let sessionBreak := calculateDuration (breakStart record) (breakEnd record) in
  (fst totals + sessionWork, snd totals + sessionBreak).

Definition calculateDailyTotal (records : list Attendance) : DailyTotal :=
  let totals := fold_left accumulate records (0, 0) in
  mkDailyTotal (fst totals) (snd totals) (Z.max 0 (fst totals - snd totals)).

(** The aggregator in the specification's words. *)
Definition sumZ (l : list Z) : Z := fold_right Z.add 0 l.

Definition minutesBetween (from to : Z) : Z := Z.quot (to - from) 60000.

Definition spec_sessionWork (s : Attendance) : Z :=
  let work :=
    match checkIn s, checkOut s with
    | Some i, Some o => minutesBetween i o
    | _, _ => 0
    end in
  match permitExitAt s, permitResumeAt s with
  | Some e, Some r => Z.max 0 (work - minutesBetween e r)
  | _, _ => work
  end.

Definition spec_sessionBreak (s : Attendance) : Z :=
  match breakStart s, breakEnd s with
  | Some b, Some e => minutesBetween b e
  | _, _ => 0
  end.

Definition aggregate (sessions : list Attendance) : DailyTotal :=
  let work := sumZ (map spec_sessionWork sessions) in
  let brk := sumZ (map spec_sessionBreak sessions) in
  mkDailyTotal work brk (Z.max 0 (work - brk)).

(** The session of the specification's scenario, on calendar day [day]:
    in at 09:00, out at 17:00, break from 12:00 to 13:00. *)
Definition scenarioSession (day : Z) : Attendance :=
  assignAll [Set_checkIn (jakartaInstant day 9 0);
             Set_breakStart (jakartaInstant day 12 0);
             Set_breakEnd (jakartaInstant day 13 0);
             Set_checkOut (jakartaInstant day 17 0)]
            (defaultRow 1 1 (formatYMD day)).

(** ** The persistence layer

    The storage module (./storage) is not among the sources; the operations the
    routes call are modelled on a table of rows kept in insertion order,
    with an auto-increment key. *)

Record Store : Type := mkStore {
  rows : list Attendance;
  nextId : Z
}.

Definition emptyStore : Store := mkStore [] 1.

Definition rowById (i : Z) (st : Store) : option Attendance :=
  find (fun r => id r =? i) (rows st).

(** Modelled from the spec: [storage.createAttendance] (the persistence
    interface's [createSession]) is missing from the sources.  It inserts
    one row under a fresh key, with the schema defaults for the columns
    the caller leaves out, and returns the row. *)
Definition createAttendance (user : Z) (day : string) (values : list Column)
    (st : Store) : Attendance * Store :=
  let row := assignAll values (defaultRow (nextId st) user day) in
  (row, mkStore (rows st ++ [row])%list (nextId st + 1)).

(** Modelled from the spec: [storage.updateAttendance] (the persistence
    interface's [updateSession]) is missing from the sources.  It sets
    the given columns on the row with the given key and returns that row. *)
Definition updateAttendance (rowId : Z) (values : list Column) (st : Store)
    : option Attendance * Store :=
  let st' :=
    mkStore (map (fun r => if id r =? rowId then assignAll values r else r)
                 (rows st))
            (nextId st) in
  (rowById rowId st', st').

Fixpoint insertBySessionNumber (r : Attendance) (l : list Attendance)
    : list Attendance :=
  match l with
  | [] => [r]
  | x :: l' =>
      if sessionNumber r <=? sessionNumber x then r :: l
      else x :: insertBySessionNumber r l'
  end.

Definition orderBySessionNumber (l : list Attendance) : list Attendance :=
  fold_right insertBySessionNumber [] l.

(** Modelled from the spec: [storage.getAttendanceSessionsByUserAndDate]
    (the spec's [sessionsForDay], [listSessionsForUserAndDate]) is
    missing from the sources.  It returns the user's sessions of the
    business date, ordered by sessionNumber ascending. *)
Definition getAttendanceSessionsByUserAndDate (user : Z) (day : string)
    (st : Store) : list Attendance :=
  orderBySessionNumber
    (filter (fun r => (userId r =? user) && (date r =? day)%string) (rows st)).

(** [!s.checkOut] *)
Definition isOpen (s : Attendance) : bool :=
  match checkOut s with
  | None => true
  | Some _ => false
  end.

(** Modelled from the spec: [storage.getAttendanceByUserAndDate], the
    single-record lookup of the permit route, is missing from the
    sources.  The spec's permit contract closes the session "if an Open
    session exists" and creates one otherwise, and names [activeSession]
    as the resolver of the day's open session: the first session of the
    day with [checkOut == null]. *)
Definition getAttendanceByUserAndDate (user : Z) (day : string) (st : Store)
    : option Attendance :=
  find isOpen (getAttendanceSessionsByUserAndDate user day st).

(** ** The attendance routes (registerRoutes, lines 103-372)

    Every route runs for an authenticated user.  [tz] is the host's local
    time zone, [now] the instant [new Date()] reads during the request. *)

(** What a request carries: the reference [handlePhotoUpload] returns
    for the uploaded photo, and the fields of [req.body]. *)
Record Request : Type := mkRequest {
  photoFileId : option string;
  location : option string;
  reqShift : option string;
  reqNotes : option string;
  reqType : option string
}.

(** The business-rule failures of the specification; each is answered
    with status 400 and a message. *)
Inductive Failure : Type :=
| SessionConflict
| SessionLimitExceeded
| NoActiveSession
| NoAttendanceToday.

Inductive Response : Type :=
| Json (attendance : option Attendance)
| Rejected (kind : Failure) (message : string).

(** A column that is left out of the object literal when its value is
    [undefined]. *)
Definition opt {A : Type} (column : A -> Column) (value : option A)
    : list Column :=
  match value with
  | Some v => [column v]
  | None => []
  end.

(** [value || fallback] on an optional string. *)
Definition orElse (value : option string) (fallback : string) : string :=
  match value with
  | Some s => if (s =? "")%string then fallback else s
  | None => fallback
  end.

Definition noActiveMessage : string :=
  "No active check-in record found for today".

Definition clockIn (tz : Zone) (now user : Z) (req : Request) (st : Store)
    : Response * Store :=
  let today := getJakartaDate tz now in
  let existingSessions := getAttendanceSessionsByUserAndDate user today st in
  match find isOpen existingSessions with
  | Some activeSession =>
      (Rejected SessionConflict
         ("Anda masih status MASUK (Sesi " ++
          string_of_Z (sessionNumber activeSession) ++
          "). Harap absen PULANG terlebih dahulu."), st)
  | None =>
      let nextSessionNumber := Z.of_nat (List.length existingSessions) + 1 in
      if nextSessionNumber >? 5
      then (Rejected SessionLimitExceeded "Batas harian 5 sesi tercapai.", st)
      else
        let shift := orElse (reqShift req) "Management" in
        let jakartaTime := jakartaTimeOf tz now in
        let hour := getHours tz jakartaTime in
        let minute := getMinutes tz jakartaTime in
        let timeInMinutes := hour * 60 + minute in
        let status :=
          if (timeInMinutes >? 420) && (shift =? "Shift 1")%string then "late"
          else if (timeInMinutes >? 720) && (shift =? "Shift 2")%string
               then "late"
               else "present" in
        let (attendance, st') :=
          createAttendance user today
            ([Set_checkIn now; Set_status status] ++
             opt Set_checkInPhoto (photoFileId req) ++
             opt Set_checkInLocation (location req) ++
             [Set_shift shift; Set_sessionNumber nextSessionNumber])%list st in
        (Json (Some attendance), st')
  end.

Definition clockOut (tz : Zone) (now user : Z) (req : Request) (st : Store)
    : Response * Store :=
  let today := getJakartaDate tz now in
  let sessions := getAttendanceSessionsByUserAndDate user today st in
  match find isOpen sessions with
  | None => (Rejected NoActiveSession noActiveMessage, st)
  | Some existing =>
      let (attendance, st') :=
        updateAttendance (id existing)
          ([Set_checkOut now] ++
           opt Set_checkOutPhoto (photoFileId req) ++
           opt Set_checkOutLocation (location req))%list st in
      (Json attendance, st')
  end.

Definition breakStart_route (tz : Zone) (now user : Z) (req : Request) (st : Store)
    : Response * Store :=
  let today := getJakartaDate tz now in
  let sessions := getAttendanceSessionsByUserAndDate user today st in
  match find isOpen sessions with
  | None => (Rejected NoActiveSession noActiveMessage, st)
  | Some existing =>
      let (attendance, st') :=
        updateAttendance (id existing)
          ([Set_breakStart now] ++
           opt Set_breakStartPhoto (photoFileId req) ++
           opt Set_breakStartLocation (location req))%list st in
      (Json attendance, st')
  end.

Definition breakEnd_route (tz : Zone) (now user : Z) (req : Request) (st : Store)
    : Response * Store :=
  let today := getJakartaDate tz now in
  let sessions := getAttendanceSessionsByUserAndDate user today st in
  match find isOpen sessions with
  | None => (Rejected NoActiveSession noActiveMessage, st)
  | Some existing =>
      let (attendance, st') :=
        updateAttendance (id existing)
          ([Set_breakEnd now] ++
           opt Set_breakEndPhoto (photoFileId req) ++
           opt Set_breakEndLocation (location req))%list st in
      (Json attendance, st')
  end.

Definition permit (tz : Zone) (now user : Z) (req : Request) (st : Store)
    : Response * Store :=
  let today := getJakartaDate tz now in
  match getAttendanceByUserAndDate user today st with
  | Some existing =>
      let (attendance, st') :=
        updateAttendance (id existing)
          (opt Set_status (reqType req) ++
           opt Set_notes (reqNotes req) ++
           [Set_checkOut now] ++
           opt Set_checkOutPhoto (photoFileId req) ++
           [Set_permitExitAt now])%list st in
      (Json attendance, st')
  | None =>
      let (attendance, st') :=
        createAttendance user today
          (opt Set_status (reqType req) ++
           opt Set_notes (reqNotes req) ++
           opt Set_checkInPhoto (photoFileId req) ++
           [Set_checkIn now])%list st in
      (Json (Some attendance), st')
  end.

Definition resume (tz : Zone) (now user : Z) (st : Store)
    : Response * Store :=
  let today := getJakartaDate tz now in
  let existingSessions := getAttendanceSessionsByUserAndDate user today st in
  if (List.length existingSessions =? 0)%nat
  then (Rejected NoAttendanceToday "No attendance record found for today", st)
  else
    match find isOpen existingSessions with
    | Some activeSession =>
        (Rejected SessionConflict
           "Masih ada sesi aktif. Silakan pulang dulu sebelum lanjut kerja.",
         st)
    | None =>
        let nextSessionNumber := Z.of_nat (List.length existingSessions) + 1 in
        let jakartaTime := jakartaTimeOf tz now in
        let hour := getHours tz jakartaTime in
        let minute := getMinutes tz jakartaTime in
        let timeInMinutes := hour * 60 + minute in
        let status := if timeInMinutes >? 420 then "late" else "present" in
        let (newSession, st') :=
          createAttendance user today
            [Set_checkIn now; Set_status status; Set_shift "Management";
             Set_sessionNumber nextSessionNumber;
             Set_notes ("Sesi ke-" ++ string_of_Z nextSessionNumber)] st in
        (Json (Some newSession), st')
    end.

(** The note the sweep leaves on the session it closes. *)
Definition autoCloseNotes (previous : option string) : string :=
  match previous with
  | Some n => if (n =? "")%string then "Auto-closed at 04:00"
              else n ++ " (Auto-closed at 04:00)"
  | None => "Auto-closed at 04:00"
  end.

Definition today_route (tz : Zone) (now user : Z) (st : Store)
    : list Attendance * Store :=
  let today := getJakartaDate tz now in
  let sessions := getAttendanceSessionsByUserAndDate user today st in
  let st' :=
    if (List.length sessions =? 0)%nat then
      let yesterday := setDate tz now (getDate tz now - 1) in
      let yesterdayStr := toLocaleDateString_Jakarta yesterday in
      let yesterdaySessions :=
        getAttendanceSessionsByUserAndDate user yesterdayStr st in
      match find isOpen yesterdaySessions with
      | Some openSession =>
          let jakartaTime := jakartaTimeOf tz now in
          if getHours tz jakartaTime >=? 4 then
            snd (updateAttendance (id openSession)
                   [Set_checkOut (setHours tz jakartaTime 4 0 0 0);
                    Set_notes (autoCloseNotes (notes openSession))] st)
          else st
      | None => st
      end
    else st in
  (sessions, st').

(** ** The operations as one transition function *)

Inductive Operation : Type :=
| ClockIn (req : Request)
| ClockOut (req : Request)
| BreakStart (req : Request)
| BreakEnd (req : Request)
| Permit (req : Request)
| Resume
| Today.

(** The store an operation leaves behind. *)
Definition perform (tz : Zone) (now user : Z) (op : Operation) (st : Store)
    : Store :=
  match op with
  | ClockIn req => snd (clockIn tz now user req st)
  | ClockOut req => snd (clockOut tz now user req st)
  | BreakStart req => snd (breakStart_route tz now user req st)
  | BreakEnd req => snd (breakEnd_route tz now user req st)
  | Permit req => snd (permit tz now user req st)
  | Resume => snd (resume tz now user st)
  | Today => snd (today_route tz now user st)
  end.

(** The table's primary key: no two rows share an [id], and every [id]
    in use lies below the auto-increment counter. *)
Definition wellKeyed (st : Store) : Prop :=
  NoDup (map id (rows st)) /\ forall r, In r (rows st) -> id r < nextId st.

(** ** Sample data *)

(** 2024-02-29 as a day number. *)
Definition leapDay : Z := 19782.

Definition onShift1 : Request := mkRequest None None (Some "Shift 1") None None.
Definition noBody : Request := mkRequest None None None None None.
Definition sickNote : Request :=
  mkRequest None None None (Some "flu") (Some "sick").

(** User 1's store after [n] sessions on [leapDay], each opened on the
    hour from 06:00 on and closed half an hour later, all through the
    routes. *)
Fixpoint workedSessions (tz : Z) (n : nat) : Store :=
  match n with
  | O => emptyStore
  | S k =>
      let h := 6 + Z.of_nat k in
      perform tz (jakartaInstant leapDay h 30) 1 (ClockOut noBody)
        (perform tz (jakartaInstant leapDay h 0) 1 (ClockIn onShift1)
           (workedSessions tz k))
  end.

(** User 1's store with one session opened at 20:00 on [leapDay] and
    never closed. *)
Definition staleStore (tz : Z) : Store :=
  perform tz (jakartaInstant leapDay 20 0) 1 (ClockIn noBody) emptyStore.

(** ** Invariants and effects *)

(** At most one session of a user and day is open. *)
Definition singleOpen (st : Store) : Prop :=
  forall r r', In r (rows st) -> In r' (rows st) ->
    userId r = userId r' -> date r = date r' ->
    checkOut r = None -> checkOut r' = None -> r = r'.

(** Columns whose assignment leaves a session at its place in the day. *)
Definition keepsOrder (c : Column) : bool :=
  match c with
  | Set_sessionNumber _ => false
  | _ => true
  end.

(** The tables the routes can produce from the empty one. *)
Inductive Reachable : Store -> Prop :=
| Reachable_empty : Reachable emptyStore
| Reachable_perform tz now user op st :
    Reachable st -> Reachable (perform tz now user op st).

(** Every operation leaves the table as it was, inserts one row for a
    user and day without an open session, or sets columns on a session
    of the table that is still open. *)
Inductive Effect (st : Store) : Store -> Prop :=
| NoChange : Effect st st
| Inserted user day cs :
    find isOpen (getAttendanceSessionsByUserAndDate user day st) = None ->
    Effect st (snd (createAttendance user day cs st))
| UpdatedOpen s cs :
    In s (rows st) -> checkOut s = None ->
    Effect st (snd (updateAttendance (id s) cs st)).

(** ** Display of a duration (client/src/lib/attendance.ts, lines 10-15) *)

Definition formatDuration (minutes : Z) : string :=
  if minutes <=? 0 then "-"
  else
    let h := minutes / 60 in
    let m := minutes mod 60 in
    string_of_Z h ++ "j " ++ string_of_Z m ++ "m".

(** Strings without a given character. *)
Fixpoint lacks (c : Ascii.ascii) (s : string) : Prop :=
  match s with
  | EmptyString => True
  | String a s' => a <> c /\ lacks c s'
  end.

(** A session whose instants come in their natural order. *)
Definition wellOrdered (s : Attendance) : Prop :=
  (forall i o, checkIn s = Some i -> checkOut s = Some o -> i <= o) /\
  (forall b e, breakStart s = Some b -> breakEnd s = Some e -> b <= e) /\
  (forall x r, permitExitAt s = Some x -> permitResumeAt s = Some r -> x <= r).

(** ** The users table and the admin routes (shared/schema.ts;
    registerRoutes, lines 382-431 and 492-510) *)

Module Users.

Record User : Type := mkUser {
  id : Z;
  email : option string;
  username : option string;
  password : string;
  fullName : string;
  role : string;
  nik : option string;
  branch : option string;
  position : option string;
  shift : option string;
  photoUrl : option string;
  isAdmin : option bool;
  phoneNumber : option string
}.

(** [!req.isAuthenticated() || req.user.role !== 'admin'], on the user
    the session middleware attached to the request, if any. *)
Definition notAdmin (reqUser : option User) : bool :=
  match reqUser with
  | None => true
  | Some u => negb (role u =? "admin")%string
  end.

End Users.

(** The fields of [req.body] of the create-employee form; an absent or
    null field is [None]. *)
Module Form.

Record t : Type := mk {
  email : option string;
  nik : option string;
  username : option string;
  phoneNumber : option string;
  role : option string;
  password : option string;
  fullName : option string;
  branch : option string;
  position : option string;
  shift : option string
}.

End Form.

(** [if (v === "") v = null] *)
Definition emptyToNull (v : option string) : option string :=
  match v with
  | Some s => if (s =? "")%string then None else Some s
  | None => None
  end.

(** JavaScript truthiness of an optional string. *)
Definition truthy (v : option string) : bool :=
  match v with
  | Some s => negb (s =? "")%string
  | None => false
  end.

Inductive CreateUserOutcome : Type :=
| Unauthorized
| BadRequest (message : string)
| ToStorage (userData : Form.t).

(** The create-employee route up to its call of [storage.createUser]:
    [ToStorage] carries the argument of that call.  [hashPassword] is
    the password hash of the auth module. *)
Definition createUserRoute (hashPassword : string -> string)
    (reqUser : option Users.User) (body : Form.t) : CreateUserOutcome :=
  if Users.notAdmin reqUser then Unauthorized
  else
    let userData :=
      Form.mk (emptyToNull (Form.email body)) (emptyToNull (Form.nik body))
        (emptyToNull (Form.username body)) (emptyToNull (Form.phoneNumber body))
        (Form.role body) (Form.password body) (Form.fullName body)
        (Form.branch body) (Form.position body) (Form.shift body) in
    let userData :=
      if match Form.role userData with
         | Some r => (r =? "employee")%string
         | None => false
         end
         && negb (truthy (Form.username userData))
         && truthy (Form.nik userData)
      then
        Form.mk (Form.email userData) (Form.nik userData) (Form.nik userData)
          (Form.phoneNumber userData) (Form.role userData)
          (Form.password userData) (Form.fullName userData)
          (Form.branch userData) (Form.position userData) (Form.shift userData)
      else userData in
    if negb (truthy (Form.username userData))
    then BadRequest "Username atau NIK wajib diisi"
    else
      let hashedPassword :=
        hashPassword (orElse (Form.password userData) "password123") in
      ToStorage
        (Form.mk (Form.email userData) (Form.nik userData)
           (Form.username userData) (Form.phoneNumber userData)
           (Form.role userData) (Some hashedPassword) (Form.fullName userData)
           (Form.branch userData) (Form.position userData)
           (Form.shift userData)).

Record DashboardStats : Type := mkDashboardStats {
  totalEmployees : Z;
  presentToday : Z
}.

(** The dashboard statistics route; [users] is what
    [storage.getAllUsers()] returns, and
    [storage.getAttendanceHistory(undefined, undefined)], called without
    user and without month, is the whole attendance table.  [None] is
    the 401 answer. *)
Definition dashboardStats (tz : Zone) (now : Z) (reqUser : option Users.User)
    (users : list Users.User) (st : Store) : option DashboardStats :=
  if Users.notAdmin reqUser then None
  else
    let totalEmployees :=
      List.length (filter (fun u => (Users.role u =? "employee")%string) users) in
    let today := getJakartaDate tz now in
    let allAttendance := rows st in
    let todayRecords :=
      filter (fun a =>
                (date a =? today)%string &&
                ((status a =? "present")%string || (status a =? "late")%string))
             allAttendance in
    Some (mkDashboardStats (Z.of_nat totalEmployees)
                           (Z.of_nat (List.length todayRecords))).

(** ** Announcements (shared/schema.ts; registerRoutes, lines 516-528) *)

Module Announcements.

Record Announcement : Type := mkAnnouncement {
  id : Z;
  title : string;
  content : string;
  imageUrl : option string;
  expiresAt : option Z;
  createdAt : option Z;
  authorId : option Z
}.

(** The list route on what [storage.getAnnouncements()] returns: the
    announcements that have no expiry or expire after [now]; [None] is
    the 401 answer. *)
Definition listRoute (authenticated : bool) (now : Z)
    (list : Datatypes.list Announcement)
    : option (Datatypes.list Announcement) :=
  if negb authenticated then None
  else
    Some (filter (fun a =>
                    match expiresAt a with
                    | None => true
                    | Some e => e >? now
                    end) list).

End Announcements.

(** One administrator and one employee. *)
Definition adminUser : Users.User :=
  Users.mkUser 1 None (Some "admin") "x" "Admin" "admin" None None None None
    None (Some true) None.

Definition employeeUser : Users.User :=
  Users.mkUser 2 None (Some "3201") "x" "Budi" "employee" (Some "3201") None
    None None None (Some false) None.

(** The columns the routes write when they insert a session, and the
    columns they write on a session that exists. *)
Definition creationColumn (c : Column) : bool :=
  match c with
  | Set_checkIn _ | Set_checkInPhoto _ | Set_checkInLocation _
  | Set_shift _ | Set_sessionNumber _ | Set_status _ | Set_notes _ => true
  | _ => false
  end.

Definition updateColumn (c : Column) : bool :=
  match c with
  | Set_checkIn _ | Set_checkInPhoto _ | Set_checkInLocation _
  | Set_shift _ | Set_sessionNumber _ | Set_permitResumeAt _ => false
  | _ => true
  end.

(** * Properties *)

(** ** Facts about the clock *)

Ltac unfold_time :=
  unfold jakartaTimeOf, parseLocal, toLocaleString_Jakarta, getHours, getMinutes,
    getFullYear, getMonth, getDate, setDate, setHours, LocalTime, UTC, Day,
    TimeWithinDay, jakartaDay, jakartaHour, jakartaMinuteOfDay, jakartaInstant,
    jakartaOffset, msPerDay, msPerHour, msPerMinute, msPerSecond in *;
  cbn [offsetAtUTC offsetAtLocal fixedZone] in *.

Lemma jakartaTime_local (tz now : Z) :
  LocalTime tz (jakartaTimeOf tz now) = toLocaleString_Jakarta now.
Proof.
  unfold jakartaTimeOf, parseLocal, LocalTime, UTC.
  cbn [offsetAtUTC offsetAtLocal fixedZone]. lia.
Qed.

Lemma getHours_jakartaTime (tz now : Z) :
  getHours tz (jakartaTimeOf tz now) = jakartaHour now.
Proof.
  unfold getHours. rewrite jakartaTime_local. unfold_time.
  Z.to_euclidean_division_equations. lia.
Qed.

Lemma getMinutes_jakartaTime (tz now : Z) :
  getHours tz (jakartaTimeOf tz now) * 60 + getMinutes tz (jakartaTimeOf tz now)
  = jakartaMinuteOfDay now.
Proof.
  unfold getHours, getMinutes. rewrite jakartaTime_local. unfold_time.
  Z.to_euclidean_division_equations. lia.
Qed.

Lemma Day_jakartaTime (tz now : Z) :
  Day (LocalTime tz (jakartaTimeOf tz now)) = jakartaDay now.
Proof.
  rewrite jakartaTime_local. unfold_time.
  Z.to_euclidean_division_equations. lia.
Qed.

Lemma setDate_previous (tz d : Z) :
  setDate tz d (getDate tz d - 1) = d - msPerDay.
Proof.
  unfold setDate, getDate.
  generalize (DateFromDay (Day (LocalTime tz d))). intro k.
  unfold_time. Z.to_euclidean_division_equations. lia.
Qed.

(** On a host whose clock can show the Jakarta wall clock reading, and
    the same reading a day earlier when the hour is below 4, the helper
    returns the business date. *)
Lemma getJakartaDate_readsBack (zone : Zone) (now : Z) :
  readsBack zone (toLocaleString_Jakarta now) ->
  (jakartaHour now < 4 ->
   readsBack zone (toLocaleString_Jakarta now - msPerDay)) ->
  getJakartaDate zone now = formatYMD (resolveBusinessDay now).
Proof.
  intros Hw Hw'. unfold getJakartaDate, resolveBusinessDay. cbv zeta.
  assert (HL : LocalTime zone (jakartaTimeOf zone now) =
               toLocaleString_Jakarta now) by exact Hw.
  assert (Hh : getHours zone (jakartaTimeOf zone now) = jakartaHour now).
  { unfold getHours. rewrite HL.
    unfold toLocaleString_Jakarta, TimeWithinDay, jakartaHour, jakartaOffset,
      msPerDay, msPerHour, msPerSecond.
    Z.to_euclidean_division_equations. lia. }
  assert (Hd : Day (toLocaleString_Jakarta now) = jakartaDay now).
  { unfold toLocaleString_Jakarta, Day, jakartaDay, jakartaOffset,
      msPerDay, msPerHour, msPerSecond.
    Z.to_euclidean_division_equations. lia. }
  rewrite Hh. destruct (Z.ltb_spec (jakartaHour now) 4) as [Hlt | Hge].
  - assert (Hs : setDate zone (jakartaTimeOf zone now)
                   (getDate zone (jakartaTimeOf zone now) - 1) =
                 UTC zone (toLocaleString_Jakarta now - msPerDay)).
    { unfold setDate, getDate. cbv zeta. rewrite HL. f_equal.
      generalize (DateFromDay (Day (toLocaleString_Jakarta now))). intros k.
      generalize (toLocaleString_Jakarta now). intros w.
      unfold Day, TimeWithinDay, msPerDay.
      Z.to_euclidean_division_equations. lia. }
    rewrite Hs. unfold getFullYear, getMonth, getDate.
    specialize (Hw' Hlt). unfold readsBack in Hw'. rewrite Hw'.
    assert (Hd' : Day (toLocaleString_Jakarta now - msPerDay) =
                  jakartaDay now - 1).
    { rewrite <- Hd. unfold Day, msPerDay.
      Z.to_euclidean_division_equations. lia. }
    rewrite Hd'. reflexivity.
  - unfold getFullYear, getMonth, getDate. rewrite HL, Hd. reflexivity.
Qed.

(** A clock with a constant offset shows every local time. *)
Lemma readsBack_fixedZone (offset wall : Z) : readsBack offset wall.
Proof.
  unfold readsBack, LocalTime, UTC. cbn [offsetAtUTC offsetAtLocal fixedZone].
  lia.
Qed.

Lemma getJakartaDate_formatYMD (tz now : Z) :
  getJakartaDate tz now = formatYMD (resolveBusinessDay now).
Proof.
  apply getJakartaDate_readsBack; intros; apply readsBack_fixedZone.
Qed.

Lemma jakartaInstant_day (day h m : Z) :
  0 <= h < 24 -> 0 <= m < 60 -> jakartaDay (jakartaInstant day h m) = day.
Proof. intros. unfold_time. Z.to_euclidean_division_equations. lia. Qed.

Lemma jakartaInstant_hour (day h m : Z) :
  0 <= h < 24 -> 0 <= m < 60 -> jakartaHour (jakartaInstant day h m) = h.
Proof. intros. unfold_time. Z.to_euclidean_division_equations. lia. Qed.

Lemma jakartaInstant_minute (day h m : Z) :
  0 <= h < 24 -> 0 <= m < 60 ->
  jakartaMinuteOfDay (jakartaInstant day h m) = h * 60 + m.
Proof. intros. unfold_time. Z.to_euclidean_division_equations. lia. Qed.

(** On a host with a constant offset, [getJakartaDate] returns for
    every instant the calendar date of the Jakarta local day, or of the
    day before it when the Jakarta local hour is below 4; on every
    calendar day 03:59 and 04:01 Jakarta time are mapped to that day's
    predecessor and to that day, one day apart. *)
Lemma getJakartaDate_business_day :
  (forall (tz now : Z),
      getJakartaDate tz now =
      formatYMD (if jakartaHour now <? 4 then jakartaDay now - 1 else jakartaDay now)) /\
  (forall (tz day : Z),
      getJakartaDate tz (jakartaInstant day 3 59) = formatYMD (day - 1) /\
      getJakartaDate tz (jakartaInstant day 4 1) = formatYMD day /\
      resolveBusinessDay (jakartaInstant day 4 1) =
      resolveBusinessDay (jakartaInstant day 3 59) + 1).
Proof.
  split.
  - intros tz now. apply getJakartaDate_formatYMD.
  - intros tz day.
    assert (H1 : resolveBusinessDay (jakartaInstant day 3 59) = day - 1).
    { unfold resolveBusinessDay.
      rewrite jakartaInstant_hour, jakartaInstant_day by lia. reflexivity. }
    assert (H2 : resolveBusinessDay (jakartaInstant day 4 1) = day).
    { unfold resolveBusinessDay.
      rewrite jakartaInstant_hour, jakartaInstant_day by lia. reflexivity. }
    rewrite !getJakartaDate_formatYMD, H1, H2. repeat split; lia.
Qed.

(** C4. At 03:30 Jakarta time on 2024-03-31 the Jakarta hour is below 4
    and the business date is 2024-03-30, the day before; on a host on
    Helsinki time, whose clock skips that reading (03:00 becomes 04:00
    there on that day), [getJakartaDate] reads the hour as 4 and returns
    2024-03-31. *)
Theorem getJakartaDate_skipped_local_hour :
  let now := jakartaInstant 19813 3 30 in
  jakartaHour now = 3 /\
  formatYMD (jakartaDay now) = "2024-03-31" /\
  formatYMD (resolveBusinessDay now) = "2024-03-30" /\
  getHours helsinki2024 (jakartaTimeOf helsinki2024 now) = 4 /\
  getJakartaDate helsinki2024 now = "2024-03-31" /\
  ~ readsBack helsinki2024 (toLocaleString_Jakarta now).
Proof.
  cbv zeta. repeat split; try (vm_compute; reflexivity).
  unfold readsBack. vm_compute. discriminate.
Qed.

Example getJakartaDate_0359 :
  getJakartaDate 0 (jakartaInstant 19782 3 59) = "2024-02-28".
Proof. vm_compute. reflexivity. Qed.

Example getJakartaDate_0401 :
  getJakartaDate 0 (jakartaInstant 19782 4 1) = "2024-02-29".
Proof. vm_compute. reflexivity. Qed.

(** ** Facts about the aggregator *)

Lemma accumulate_spec (totals : Z * Z) (s : Attendance) :
  accumulate totals s =
  (fst totals + spec_sessionWork s, snd totals + spec_sessionBreak s).
Proof.
  unfold accumulate, spec_sessionWork, spec_sessionBreak, calculateDuration,
    differenceInMinutes, minutesBetween, msPerMinute.
  destruct (checkIn s), (checkOut s), (permitExitAt s), (permitResumeAt s),
    (breakStart s), (breakEnd s); reflexivity.
Qed.

Lemma fold_accumulate (records : list Attendance) :
  forall totals,
    fold_left accumulate records totals =
    (fst totals + sumZ (map spec_sessionWork records),
     snd totals + sumZ (map spec_sessionBreak records)).
Proof.
  induction records as [|s records IH]; intros [w b]; simpl.
  - f_equal; lia.
  - rewrite IH, accumulate_spec. simpl. f_equal; lia.
Qed.

Lemma calculateDailyTotal_aggregate (records : list Attendance) :
  calculateDailyTotal records = aggregate records.
Proof.
  unfold calculateDailyTotal, aggregate. rewrite fold_accumulate. reflexivity.
Qed.

Lemma sumZ_Permutation (l l' : list Z) : Permutation l l' -> sumZ l = sumZ l'.
Proof. induction 1; simpl; lia. Qed.

(** On instants that fall on whole minutes the truncated difference is
    the difference of the two minute counts. *)
Lemma minutesBetween_whole_minutes (a b : Z) :
  a mod 60000 = 0 -> b mod 60000 = 0 ->
  minutesBetween a b = b / 60000 - a / 60000.
Proof.
  intros Ha Hb. unfold minutesBetween.
  apply Z.mod_divide in Ha; [|lia]. apply Z.mod_divide in Hb; [|lia].
  destruct Ha as [p ->], Hb as [q ->].
  rewrite !Z.div_mul by lia.
  replace (q * 60000 - p * 60000) with ((q - p) * 60000) by lia.
  apply Z.quot_mul. lia.
Qed.

(** C8. The aggregator returns, for every list of sessions, the sum of
    the per-session work minutes (check-in to check-out, 0 when either
    is absent, less the permit interval floored at 0 when both permit
    instants are set), the sum of the per-session break minutes, and
    their difference floored at 0; it is defined on every input; and the
    scenario session yields 480, 60 and 420. *)
Theorem calculateDailyTotal_spec :
  (forall records,
      totalWorkMins (calculateDailyTotal records) =
        sumZ (map spec_sessionWork records) /\
      totalBreakMins (calculateDailyTotal records) =
        sumZ (map spec_sessionBreak records) /\
      netWorkMins (calculateDailyTotal records) =
        Z.max 0 (totalWorkMins (calculateDailyTotal records) -
                 totalBreakMins (calculateDailyTotal records))) /\
  (forall day,
      calculateDailyTotal [scenarioSession day] = mkDailyTotal 480 60 420).
Proof.
  split.
  - intros records. rewrite calculateDailyTotal_aggregate. simpl. auto.
  - intros day. rewrite calculateDailyTotal_aggregate.
    unfold aggregate, spec_sessionWork, spec_sessionBreak, scenarioSession.
    simpl. unfold minutesBetween. unfold_time.
    replace (day * 86400000 + 17 * 3600000 + 0 * 60000 - 7 * 3600000 -
             (day * 86400000 + 9 * 3600000 + 0 * 60000 - 7 * 3600000))
      with (480 * 60000) by lia.
    replace (day * 86400000 + 13 * 3600000 + 0 * 60000 - 7 * 3600000 -
             (day * 86400000 + 12 * 3600000 + 0 * 60000 - 7 * 3600000))
      with (60 * 60000) by lia.
    reflexivity.
Qed.

(** C9. The aggregator gives the same three totals on every
    rearrangement of a list of sessions; being a function of its
    argument alone, evaluating it again on the same list gives the same
    result. *)
Theorem calculateDailyTotal_Permutation (records records' : list Attendance) :
  Permutation records records' ->
  calculateDailyTotal records = calculateDailyTotal records'.
Proof.
  intros HP. rewrite !calculateDailyTotal_aggregate. unfold aggregate.
  rewrite (sumZ_Permutation _ _ (Permutation_map spec_sessionWork HP)).
  rewrite (sumZ_Permutation _ _ (Permutation_map spec_sessionBreak HP)).
  reflexivity.
Qed.

Lemma calculateDailyTotal_Permutation_witness :
  Permutation [scenarioSession 1; scenarioSession 2]
              [scenarioSession 2; scenarioSession 1] /\
  calculateDailyTotal [scenarioSession 1; scenarioSession 2] =
  calculateDailyTotal [scenarioSession 2; scenarioSession 1].
Proof.
  split.
  - apply perm_swap.
  - apply (calculateDailyTotal_Permutation
             [scenarioSession 1; scenarioSession 2]
             [scenarioSession 2; scenarioSession 1]).
    apply perm_swap.
Defined.

(** ** Facts about rows and the persistence layer *)

Lemma assign_key (c : Column) (r : Attendance) :
  id (assign c r) = id r /\ userId (assign c r) = userId r /\
  date (assign c r) = date r.
Proof. destruct c; simpl; auto. Qed.

Lemma assignAll_key (cs : list Column) :
  forall r, id (assignAll cs r) = id r /\ userId (assignAll cs r) = userId r /\
            date (assignAll cs r) = date r.
Proof.
  unfold assignAll. induction cs as [|c cs IH]; intros r; simpl; auto.
  destruct (IH (assign c r)) as (H1 & H2 & H3).
  destruct (assign_key c r) as (K1 & K2 & K3).
  rewrite H1, H2, H3. auto.
Qed.

Lemma assignAll_keepsOrder (cs : list Column) :
  forallb keepsOrder cs = true ->
  forall r, sessionNumber (assignAll cs r) = sessionNumber r.
Proof.
  unfold assignAll. induction cs as [|c cs IH]; simpl; intros H r; auto.
  apply andb_true_iff in H as [Hc Hcs].
  rewrite (IH Hcs). destruct c; simpl in *; try discriminate; reflexivity.
Qed.

Lemma insertBySessionNumber_Permutation (r : Attendance) (l : list Attendance) :
  Permutation (insertBySessionNumber r l) (r :: l).
Proof.
  induction l as [|x l IH]; simpl.
  - apply Permutation_refl.
  - destruct (sessionNumber r <=? sessionNumber x).
    + apply Permutation_refl.
    + apply perm_trans with (x :: r :: l).
      * apply perm_skip. exact IH.
      * apply perm_swap.
Qed.

Lemma orderBySessionNumber_Permutation (l : list Attendance) :
  Permutation (orderBySessionNumber l) l.
Proof.
  induction l as [|x l IH]; simpl.
  - apply perm_nil.
  - eapply perm_trans.
    + apply insertBySessionNumber_Permutation.
    + apply perm_skip. exact IH.
Qed.

Lemma sessions_In (user : Z) (day : string) (st : Store) (s : Attendance) :
  In s (getAttendanceSessionsByUserAndDate user day st) <->
  In s (rows st) /\ userId s = user /\ date s = day.
Proof.
  unfold getAttendanceSessionsByUserAndDate. split.
  - intros H.
    apply (Permutation_in _ (orderBySessionNumber_Permutation _)) in H.
    apply filter_In in H as [Hin Hb].
    apply andb_true_iff in Hb as [Hu Hd].
    apply Z.eqb_eq in Hu. apply String.eqb_eq in Hd. auto.
  - intros (Hin & Hu & Hd).
    apply (Permutation_in _ (Permutation_sym (orderBySessionNumber_Permutation _))).
    apply filter_In. split; [exact Hin|].
    apply andb_true_iff. split; [apply Z.eqb_eq | apply String.eqb_eq]; auto.
Qed.

Lemma isOpen_true (s : Attendance) : isOpen s = true <-> checkOut s = None.
Proof. unfold isOpen. destruct (checkOut s); split; intros; congruence. Qed.

(** The resolver finds an open session exactly when the day has one. *)
Lemma activeSession_found (user : Z) (day : string) (st : Store) (s : Attendance) :
  find isOpen (getAttendanceSessionsByUserAndDate user day st) = Some s ->
  In s (rows st) /\ userId s = user /\ date s = day /\ checkOut s = None.
Proof.
  intros H. apply find_some in H as [Hin Ho].
  apply sessions_In in Hin as (H1 & H2 & H3).
  apply isOpen_true in Ho. auto.
Qed.

Lemma activeSession_exists (user : Z) (day : string) (st : Store) (s : Attendance) :
  In s (rows st) -> userId s = user -> date s = day -> checkOut s = None ->
  exists a, find isOpen (getAttendanceSessionsByUserAndDate user day st) = Some a.
Proof.
  intros Hin Hu Hd Hc.
  destruct (find isOpen (getAttendanceSessionsByUserAndDate user day st)) eqn:E.
  - eauto.
  - exfalso.
    pose proof (find_none _ _ E s) as Hn.
    rewrite (proj2 (isOpen_true s) Hc) in Hn.
    assert (true = false) by (apply Hn; apply sessions_In; auto).
    discriminate.
Qed.

Lemma same_key_same_row (l : list Attendance) (a b : Attendance) :
  NoDup (map id l) -> In a l -> In b l -> id a = id b -> a = b.
Proof.
  induction l as [|x l IH]; simpl; intros Hnd Ha Hb Hid; [contradiction|].
  inversion Hnd as [|y ys Hnot Hnd']; subst.
  destruct Ha as [-> | Ha], Hb as [-> | Hb]; auto.
  - exfalso. apply Hnot. rewrite Hid. apply in_map. exact Hb.
  - exfalso. apply Hnot. rewrite <- Hid. apply in_map. exact Ha.
Qed.

Lemma rowById_In (i : Z) (st : Store) (r : Attendance) :
  rowById i st = Some r -> In r (rows st) /\ id r = i.
Proof.
  unfold rowById. intros H. apply find_some in H as [Hin Hid].
  apply Z.eqb_eq in Hid. auto.
Qed.

Lemma rowById_create (i : Z) (st : Store) (r : Attendance)
    (user : Z) (day : string) (cs : list Column) :
  rowById i st = Some r ->
  rowById i (snd (createAttendance user day cs st)) = Some r.
Proof.
  unfold rowById, createAttendance. simpl.
  generalize (assignAll cs (defaultRow (nextId st) user day)). intros new.
  induction (rows st) as [|x l IH]; simpl; [discriminate|].
  destruct (id x =? i); auto.
Qed.

Lemma rowById_update_other (i j : Z) (cs : list Column) (st : Store) :
  i <> j ->
  rowById i (snd (updateAttendance j cs st)) = rowById i st.
Proof.
  intros Hij. unfold rowById, updateAttendance. simpl.
  induction (rows st) as [|x l IH]; simpl; [reflexivity|].
  destruct (id x =? j) eqn:Ej.
  - apply Z.eqb_eq in Ej.
    destruct (assignAll_key cs x) as (K & _). rewrite K.
    destruct (id x =? i) eqn:Ei; [apply Z.eqb_eq in Ei; lia | exact IH].
  - destruct (id x =? i); [reflexivity | exact IH].
Qed.

Lemma rowById_update_same (j : Z) (cs : list Column) (st : Store) (r : Attendance) :
  rowById j st = Some r ->
  rowById j (snd (updateAttendance j cs st)) = Some (assignAll cs r).
Proof.
  unfold rowById, updateAttendance. simpl.
  induction (rows st) as [|x l IH]; simpl; [discriminate|].
  destruct (id x =? j) eqn:Ej.
  - intros H. inversion H; subst.
    destruct (assignAll_key cs r) as (K & _). rewrite K, Ej. reflexivity.
  - rewrite Ej. exact IH.
Qed.

Lemma rowById_of_In (st : Store) (r : Attendance) :
  wellKeyed st -> In r (rows st) -> rowById (id r) st = Some r.
Proof.
  intros [Hnd _] Hin. unfold rowById.
  destruct (find (fun x => id x =? id r) (rows st)) eqn:E.
  - apply find_some in E as [Hin' Hid]. apply Z.eqb_eq in Hid.
    f_equal. apply (same_key_same_row (rows st)); auto.
  - pose proof (find_none _ _ E r Hin) as Hn. simpl in Hn.
    rewrite Z.eqb_refl in Hn. discriminate.
Qed.

Lemma snd_let {A B C : Type} (p : A * B) (f : A -> C) :
  snd (let (a, b) := p in (f a, b)) = snd p.
Proof. destruct p; reflexivity. Qed.

Lemma fst_let {A B C : Type} (p : A * B) (f : A -> C) :
  fst (let (a, b) := p in (f a, b)) = f (fst p).
Proof. destruct p; reflexivity. Qed.

Lemma perform_Effect (tz : Zone) (now user : Z) (op : Operation) (st : Store) :
  Effect st (perform tz now user op st).
Proof.
  destruct op as [req|req|req|req|req| |]; unfold perform.
  - unfold clockIn.
    destruct (find isOpen _) eqn:E; [apply NoChange|].
    destruct (_ >? 5); [apply NoChange|].
    rewrite snd_let. apply Inserted. exact E.
  - unfold clockOut.
    destruct (find isOpen _) as [s|] eqn:E; [|apply NoChange].
    apply activeSession_found in E as (H1 & _ & _ & H4).
    rewrite snd_let. apply UpdatedOpen; auto.
  - unfold breakStart_route.
    destruct (find isOpen _) as [s|] eqn:E; [|apply NoChange].
    apply activeSession_found in E as (H1 & _ & _ & H4).
    rewrite snd_let. apply UpdatedOpen; auto.
  - unfold breakEnd_route.
    destruct (find isOpen _) as [s|] eqn:E; [|apply NoChange].
    apply activeSession_found in E as (H1 & _ & _ & H4).
    rewrite snd_let. apply UpdatedOpen; auto.
  - unfold permit, getAttendanceByUserAndDate.
    destruct (find isOpen _) as [s|] eqn:E.
    + apply activeSession_found in E as (H1 & _ & _ & H4).
      rewrite snd_let. apply UpdatedOpen; auto.
    + rewrite snd_let. apply Inserted. exact E.
  - unfold resume.
    destruct (_ =? _)%nat; [apply NoChange|].
    destruct (find isOpen _) eqn:E; [apply NoChange|].
    rewrite snd_let. apply Inserted. exact E.
  - unfold today_route. cbn [snd].
    destruct (_ =? _)%nat; [|apply NoChange].
    destruct (find isOpen _) as [s|] eqn:E; [|apply NoChange].
    destruct (_ >=? 4); [|apply NoChange].
    apply activeSession_found in E as (H1 & _ & _ & H4).
    apply UpdatedOpen; auto.
Qed.

Lemma Effect_wellKeyed (st st' : Store) :
  Effect st st' -> wellKeyed st -> wellKeyed st'.
Proof.
  intros HE [Hnd Hlt]. destruct HE as [|user day cs Hno|s cs Hin Hc].
  - split; assumption.
  - destruct (assignAll_key cs (defaultRow (nextId st) user day)) as (K & _).
    unfold wellKeyed, createAttendance. cbn [snd rows nextId].
    set (new := assignAll cs (defaultRow (nextId st) user day)) in *.
    cbn [id defaultRow] in K. split.
    + rewrite map_app. cbn [map]. rewrite K.
      apply NoDup_incl_NoDup with (l := nextId st :: map id (rows st)).
      * constructor; [|exact Hnd].
        intros Hin. apply in_map_iff in Hin as (r & Hr & Hin).
        specialize (Hlt r Hin). lia.
      * rewrite length_app. simpl. lia.
      * intros x Hx. apply in_app_iff. destruct Hx as [<- | Hx]; simpl; auto.
    + intros r Hr. apply in_app_iff in Hr as [Hr | [<- | []]].
      * specialize (Hlt r Hr). lia.
      * rewrite K. lia.
  - unfold wellKeyed, updateAttendance. cbn [snd rows nextId].
    assert (Hmap : map id (map (fun r => if id r =? id s then assignAll cs r else r)
                               (rows st)) = map id (rows st)).
    { rewrite map_map. apply map_ext. intros r.
      destruct (id r =? id s); [apply assignAll_key | reflexivity]. }
    split.
    + rewrite Hmap. exact Hnd.
    + intros r Hr. apply in_map_iff in Hr as (x & Hx & Hin').
      specialize (Hlt x Hin'). subst r.
      destruct (id x =? id s); [|exact Hlt].
      destruct (assignAll_key cs x) as (K & _). rewrite K. exact Hlt.
Qed.

(** The key discipline is an invariant of the routes. *)
Lemma perform_wellKeyed (tz : Zone) (now user : Z) (op : Operation) (st : Store) :
  wellKeyed st -> wellKeyed (perform tz now user op st).
Proof. apply Effect_wellKeyed, perform_Effect. Qed.

Lemma emptyStore_wellKeyed : wellKeyed emptyStore.
Proof. split; simpl; [constructor | contradiction]. Qed.

Lemma Effect_closed_row (st st' : Store) (i : Z) (r : Attendance) (c : Z) :
  Effect st st' -> wellKeyed st ->
  rowById i st = Some r -> checkOut r = Some c -> rowById i st' = Some r.
Proof.
  intros HE Hwk Hr Hc. destruct HE as [|user day cs Hno|s cs Hin Hs].
  - exact Hr.
  - apply rowById_create. exact Hr.
  - rewrite rowById_update_other; [exact Hr|].
    intros ->. apply rowById_In in Hr as [Hin' Hid].
    assert (r = s) by (apply (same_key_same_row (rows st)); auto; apply Hwk).
    subst r. congruence.
Qed.

(** ** The routes

    What a successful clock-in has created. *)
Lemma clockIn_created (tz now user : Z) (req : Request) (st : Store)
    (a : Attendance) (st' : Store) :
  clockIn tz now user req st = (Json (Some a), st') ->
  let sessions :=
    getAttendanceSessionsByUserAndDate user (getJakartaDate tz now) st in
  let shift' := orElse (reqShift req) "Management" in
  find isOpen sessions = None /\
  Z.of_nat (List.length sessions) < 5 /\
  st' = mkStore (rows st ++ [a])%list (nextId st + 1) /\
  id a = nextId st /\ userId a = user /\ date a = getJakartaDate tz now /\
  checkIn a = Some now /\ checkOut a = None /\
  sessionNumber a = Z.of_nat (List.length sessions) + 1 /\
  shift a = Some shift' /\
  status a =
    (if (jakartaMinuteOfDay now >? 420) && (shift' =? "Shift 1")%string then "late"
     else if (jakartaMinuteOfDay now >? 720) && (shift' =? "Shift 2")%string
          then "late" else "present").
Proof.
  unfold clockIn. rewrite getMinutes_jakartaTime.
  generalize (getJakartaDate tz now) as today.
  generalize (jakartaMinuteOfDay now) as mins.
  generalize (orElse (reqShift req) "Management") as sh.
  intros sh mins today. cbv zeta.
  generalize (getAttendanceSessionsByUserAndDate user today st) as sessions.
  intros sessions.
  destruct (find isOpen sessions); [discriminate|].
  destruct (Z.gtb_spec (Z.of_nat (List.length sessions) + 1) 5) as [Hgt|Hle];
    [discriminate|].
  generalize (if (mins >? 420) && (sh =? "Shift 1")%string then "late"
              else if (mins >? 720) && (sh =? "Shift 2")%string
                   then "late" else "present") as status.
  intros status. unfold createAttendance.
  intros H. injection H as Ha Hst. subst a st'.
  split; [reflexivity|]. split; [lia|]. split; [reflexivity|].
  destruct (photoFileId req), (location req); cbn; repeat split; reflexivity.
Qed.

Lemma workedSessions_wellKeyed (tz : Z) (n : nat) : wellKeyed (workedSessions tz n).
Proof.
  induction n as [|n IH]; cbn [workedSessions].
  - apply emptyStore_wellKeyed.
  - cbv zeta. do 2 apply perform_wellKeyed. exact IH.
Qed.

(** C2. On a table that respects its primary key, a session whose
    checkOut is set is left exactly as it was, checkOut included, by
    every operation: clock-in, clock-out, break-start, break-end, permit
    and resume, and the auto-close sweep of the today query as well,
    which only ever writes checkOut on a session whose checkOut was
    null. *)
Theorem closed_checkOut_immutable (tz now user : Z) (op : Operation)
    (st : Store) (i : Z) (r : Attendance) (c : Z) :
  wellKeyed st -> rowById i st = Some r -> checkOut r = Some c ->
  rowById i (perform tz now user op st) = Some r.
Proof.
  intros Hwk Hr Hc.
  apply (Effect_closed_row st _ i r c); auto. apply perform_Effect.
Qed.

Lemma closed_checkOut_immutable_witness :
  let st := perform 0 (jakartaInstant leapDay 8 0) 1 Resume (workedSessions 0 1) in
  exists r,
    rowById 1 st = Some r /\
    checkOut r = Some (jakartaInstant leapDay 6 30) /\
    rowById 1 (perform 0 (jakartaInstant leapDay 9 0) 1 (Permit sickNote) st)
      = Some r.
Proof.
  cbv zeta.
  eexists. split; [vm_compute; reflexivity|]. split; [vm_compute; reflexivity|].
  apply (closed_checkOut_immutable 0 (jakartaInstant leapDay 9 0) 1
           (Permit sickNote)
           (perform 0 (jakartaInstant leapDay 8 0) 1 Resume (workedSessions 0 1))
           1 _ (jakartaInstant leapDay 6 30)).
  - apply perform_wellKeyed, workedSessions_wellKeyed.
  - vm_compute. reflexivity.
  - vm_compute. reflexivity.
Defined.

(** C6. Whenever the user has a session of the current business date
    whose checkOut is null, whatever its break columns hold, clock-in is
    rejected as a session conflict and the table is left unchanged. *)
Theorem clockIn_conflict (tz now user : Z) (req : Request) (st : Store)
    (s : Attendance) :
  In s (rows st) -> userId s = user -> date s = getJakartaDate tz now ->
  checkOut s = None ->
  exists message,
    clockIn tz now user req st = (Rejected SessionConflict message, st).
Proof.
  intros Hin Hu Hd Hc.
  destruct (activeSession_exists user _ st s Hin Hu Hd Hc) as [a Ha].
  unfold clockIn. rewrite Ha. eauto.
Qed.


Lemma clockIn_conflict_witness :
  let now1 := jakartaInstant leapDay 6 0 in
  let now2 := jakartaInstant leapDay 9 0 in
  let now3 := jakartaInstant leapDay 9 30 in
  let st := perform 0 now2 1 (BreakStart noBody)
              (perform 0 now1 1 (ClockIn onShift1) emptyStore) in
  exists message,
    clockIn 0 now3 1 onShift1 st = (Rejected SessionConflict message, st).
Proof.
  cbv zeta.
  eapply (clockIn_conflict 0 (jakartaInstant leapDay 9 30) 1 onShift1 _ _).
  - vm_compute. left. reflexivity.
  - vm_compute. reflexivity.
  - vm_compute. reflexivity.
  - vm_compute. reflexivity.
Defined.


(** C10. Break-start and break-end are rejected with NoActiveSession
    exactly when the day has no session with a null checkOut; otherwise
    they succeed on the first open session whatever its break columns
    hold: break-end stores breakEnd and leaves breakStart as it was, so
    that with a null breakStart the aggregator counts 0 break minutes,
    and break-start stores the new instant over any earlier breakStart. *)
Theorem break_needs_only_open_session (tz now user : Z) (req : Request)
    (st : Store) :
  wellKeyed st ->
  let sessions :=
    getAttendanceSessionsByUserAndDate user (getJakartaDate tz now) st in
  (find isOpen sessions = None ->
     breakStart_route tz now user req st
       = (Rejected NoActiveSession noActiveMessage, st) /\
     breakEnd_route tz now user req st
       = (Rejected NoActiveSession noActiveMessage, st)) /\
  (forall s, find isOpen sessions = Some s ->
     (exists s',
        fst (breakEnd_route tz now user req st) = Json (Some s') /\
        rowById (id s) (snd (breakEnd_route tz now user req st)) = Some s' /\
        breakEnd s' = Some now /\ breakStart s' = breakStart s /\
        checkOut s' = None /\
        (breakStart s = None ->
           totalBreakMins (calculateDailyTotal [s']) = 0)) /\
     (exists s',
        fst (breakStart_route tz now user req st) = Json (Some s') /\
        rowById (id s) (snd (breakStart_route tz now user req st)) = Some s' /\
        breakStart s' = Some now /\ breakEnd s' = breakEnd s /\
        checkOut s' = None)).
Proof.
  intros Hwk sessions. split.
  - intros Hn. unfold breakStart_route, breakEnd_route.
    fold sessions. rewrite Hn. split; reflexivity.
  - intros s Hs.
    pose proof (activeSession_found _ _ _ _ Hs) as (Hin & _ & _ & Hc).
    pose proof (rowById_of_In st s Hwk Hin) as Hrow.
    split.
    + unfold breakEnd_route. fold sessions. rewrite Hs.
      rewrite fst_let, snd_let.
      set (cs := ([Set_breakEnd now] ++ opt Set_breakEndPhoto (photoFileId req) ++
                  opt Set_breakEndLocation (location req))%list).
      pose proof (rowById_update_same (id s) cs st s Hrow) as Hupd.
      exists (assignAll cs s). unfold updateAttendance at 1. cbn [fst].
      unfold updateAttendance in Hupd. cbn [snd] in Hupd.
      rewrite Hupd. split; [reflexivity|]. split; [exact Hupd|].
      assert (HF : breakEnd (assignAll cs s) = Some now /\
                   breakStart (assignAll cs s) = breakStart s /\
                   checkOut (assignAll cs s) = checkOut s).
      { subst cs. destruct (photoFileId req), (location req); cbn; auto. }
      destruct HF as (F1 & F2 & F3).
      repeat split; try congruence.
      intros Hb. rewrite calculateDailyTotal_aggregate.
      unfold aggregate, spec_sessionBreak.
      cbn [map sumZ fold_right totalBreakMins]. rewrite F2, Hb. reflexivity.
    + unfold breakStart_route. fold sessions. rewrite Hs.
      rewrite fst_let, snd_let.
      set (cs := ([Set_breakStart now] ++ opt Set_breakStartPhoto (photoFileId req) ++
                  opt Set_breakStartLocation (location req))%list).
      pose proof (rowById_update_same (id s) cs st s Hrow) as Hupd.
      exists (assignAll cs s). unfold updateAttendance at 1. cbn [fst].
      unfold updateAttendance in Hupd. cbn [snd] in Hupd.
      rewrite Hupd. split; [reflexivity|]. split; [exact Hupd|].
      subst cs. destruct (photoFileId req), (location req); cbn;
        repeat split; auto.
Qed.

Lemma break_needs_only_open_session_witness :
  let st := perform 0 (jakartaInstant leapDay 6 0) 1 (ClockIn onShift1) emptyStore in
  let now := jakartaInstant leapDay 9 0 in
  wellKeyed st /\
  exists s',
    fst (breakEnd_route 0 now 1 noBody st) = Json (Some s') /\
    breakEnd s' = Some now /\ breakStart s' = None.
Proof.
  cbv zeta.
  assert (Hwk : wellKeyed (perform 0 (jakartaInstant leapDay 6 0) 1
                             (ClockIn onShift1) emptyStore)).
  { apply perform_wellKeyed, emptyStore_wellKeyed. }
  split; [exact Hwk|].
  destruct (break_needs_only_open_session 0 (jakartaInstant leapDay 9 0) 1
              noBody _ Hwk) as [_ H].
  edestruct H as [(s' & H1 & _ & H3 & H4 & _) _].
  - vm_compute. reflexivity.
  - exists s'. split; [exact H1|]. split; [exact H3|]. exact H4.
Defined.

(** A second break-start on the same open session: the later instant
    replaces the earlier one. *)
Example breakStart_twice :
  let st0 := perform 0 (jakartaInstant leapDay 6 0) 1 (ClockIn onShift1) emptyStore in
  let st1 := perform 0 (jakartaInstant leapDay 9 0) 1 (BreakStart noBody) st0 in
  let st2 := perform 0 (jakartaInstant leapDay 9 30) 1 (BreakStart noBody) st1 in
  option_map breakStart (rowById 1 st1) = Some (Some (jakartaInstant leapDay 9 0)) /\
  option_map breakStart (rowById 1 st2) = Some (Some (jakartaInstant leapDay 9 30)).
Proof. split; vm_compute; reflexivity. Qed.

(** Clock-in refuses a sixth session. *)
Lemma clockIn_limit (tz now user : Z) (req : Request) (st : Store) :
  let sessions :=
    getAttendanceSessionsByUserAndDate user (getJakartaDate tz now) st in
  find isOpen sessions = None -> (5 <= List.length sessions)%nat ->
  clockIn tz now user req st =
  (Rejected SessionLimitExceeded "Batas harian 5 sesi tercapai.", st).
Proof.
  intros sessions Hn Hl. unfold clockIn. fold sessions. rewrite Hn.
  destruct (_ >? 5) eqn:E; [reflexivity|]. lia.
Qed.

(** C1. After five sessions worked and closed through the routes on
    one business date, resume is not rejected: it creates a session
    numbered 6, and the day then holds six sessions. *)
Theorem resume_sixth_session :
  let st := workedSessions 0 5 in
  let now := jakartaInstant leapDay 13 0 in
  List.length (getAttendanceSessionsByUserAndDate 1 (getJakartaDate 0 now) st) = 5%nat /\
  find isOpen (getAttendanceSessionsByUserAndDate 1 (getJakartaDate 0 now) st) = None /\
  exists a st',
    resume 0 now 1 st = (Json (Some a), st') /\
    sessionNumber a = 6 /\
    List.length (getAttendanceSessionsByUserAndDate 1 (getJakartaDate 0 now) st') = 6%nat.
Proof.
  cbv zeta. split; [vm_compute; reflexivity|]. split; [vm_compute; reflexivity|].
  eexists. eexists. split; [vm_compute; reflexivity|].
  split; vm_compute; reflexivity.
Qed.

Lemma find_none_iff {A : Type} (f : A -> bool) (l : list A) :
  find f l = None <-> forall x, In x l -> f x = false.
Proof.
  split; [apply find_none|].
  induction l as [|x l IH]; simpl; intros H; [reflexivity|].
  rewrite (H x) by auto. apply IH. auto.
Qed.




(** ** The single open session and the auto-close sweep *)

Lemma assignAll_stays_closed (cs : list Column) :
  forall r, checkOut (assignAll cs r) = None -> checkOut r = None.
Proof.
  unfold assignAll. induction cs as [|c cs IH]; simpl; intros r H; auto.
  apply IH in H. destruct c; simpl in H; auto; discriminate.
Qed.

Lemma Effect_singleOpen (st st' : Store) :
  Effect st st' -> singleOpen st -> singleOpen st'.
Proof.
  intros HE Hso. destruct HE as [|user day cs Hno|s cs Hin Hc].
  - exact Hso.
  - unfold createAttendance. cbn [snd].
    set (new := assignAll cs (defaultRow (nextId st) user day)).
    destruct (assignAll_key cs (defaultRow (nextId st) user day)) as (_ & Ku & Kd).
    fold new in Ku, Kd. cbn in Ku, Kd.
    assert (Hold : forall r, In r (rows st) -> userId r = user -> date r = day ->
                             checkOut r = None -> False).
    { intros r Hr Hu Hd Hco.
      pose proof (find_none _ _ Hno r) as Hf.
      rewrite (proj2 (isOpen_true r) Hco) in Hf.
      assert (true = false) by (apply Hf; apply sessions_In; auto).
      discriminate. }
    intros r r' Hr Hr' Hu Hd Hco Hco'. cbn [rows] in Hr, Hr'.
    apply in_app_iff in Hr as [Hr | [<- | []]];
    apply in_app_iff in Hr' as [Hr' | [<- | []]].
    + apply Hso; auto.
    + exfalso. apply (Hold r); auto; congruence.
    + exfalso. apply (Hold r'); auto; congruence.
    + reflexivity.
  - unfold updateAttendance. cbn [snd].
    intros r r' Hr Hr' Hu Hd Hco Hco'. cbn [rows] in Hr, Hr'.
    apply in_map_iff in Hr as (x & <- & Hx).
    apply in_map_iff in Hr' as (x' & <- & Hx').
    assert (x = x'); [|subst; reflexivity].
    apply Hso; auto.
    + destruct (id x =? id s), (id x' =? id s); auto;
        repeat match goal with
               | H : context [userId (assignAll cs ?y)] |- _ =>
                   rewrite (proj1 (proj2 (assignAll_key cs y))) in H
               end; auto.
    + destruct (id x =? id s), (id x' =? id s); auto;
        repeat match goal with
               | H : context [date (assignAll cs ?y)] |- _ =>
                   rewrite (proj2 (proj2 (assignAll_key cs y))) in H
               end; auto.
    + destruct (id x =? id s); auto. apply (assignAll_stays_closed cs). auto.
    + destruct (id x' =? id s); auto. apply (assignAll_stays_closed cs). auto.
Qed.

Lemma perform_singleOpen (tz : Zone) (now user : Z) (op : Operation) (st : Store) :
  singleOpen st -> singleOpen (perform tz now user op st).
Proof. apply Effect_singleOpen, perform_Effect. Qed.

Lemma emptyStore_singleOpen : singleOpen emptyStore.
Proof. intros r r' []. Qed.

(** Unique ids and a single open session per user and day hold of every
    table the routes produce. *)
Lemma Reachable_invariants (st : Store) :
  Reachable st -> wellKeyed st /\ singleOpen st.
Proof.
  induction 1 as [|tz now user op st _ [IHk IHo]].
  - split; [apply emptyStore_wellKeyed | apply emptyStore_singleOpen].
  - split; [apply perform_wellKeyed | apply perform_singleOpen]; assumption.
Qed.

Lemma filter_map_same {A : Type} (g : A -> A) (p : A -> bool) (l : list A) :
  (forall x, p (g x) = p x) -> filter p (map g l) = map g (filter p l).
Proof.
  intros H. induction l as [|x l IH]; simpl; [reflexivity|].
  rewrite H. destruct (p x); simpl; rewrite IH; reflexivity.
Qed.

Lemma insertBySessionNumber_map (g : Attendance -> Attendance) :
  (forall x, sessionNumber (g x) = sessionNumber x) ->
  forall r l, insertBySessionNumber (g r) (map g l) =
              map g (insertBySessionNumber r l).
Proof.
  intros H r l. induction l as [|x l IH]; simpl; [reflexivity|].
  rewrite !H. destruct (sessionNumber r <=? sessionNumber x); simpl.
  - reflexivity.
  - rewrite IH. reflexivity.
Qed.

Lemma orderBySessionNumber_map (g : Attendance -> Attendance) :
  (forall x, sessionNumber (g x) = sessionNumber x) ->
  forall l, orderBySessionNumber (map g l) = map g (orderBySessionNumber l).
Proof.
  intros H l. induction l as [|x l IH]; simpl; [reflexivity|].
  rewrite IH. apply insertBySessionNumber_map. exact H.
Qed.

(** The day's sessions after an update that keeps session numbers are
    the day's sessions before it, updated. *)
Lemma sessions_update (user : Z) (day : string) (j : Z) (cs : list Column)
    (st : Store) :
  forallb keepsOrder cs = true ->
  getAttendanceSessionsByUserAndDate user day (snd (updateAttendance j cs st)) =
  map (fun r => if id r =? j then assignAll cs r else r)
      (getAttendanceSessionsByUserAndDate user day st).
Proof.
  intros Hk. unfold getAttendanceSessionsByUserAndDate, updateAttendance.
  cbn [snd rows].
  rewrite filter_map_same.
  - apply orderBySessionNumber_map. intros x.
    destruct (id x =? j); [apply assignAll_keepsOrder; exact Hk | reflexivity].
  - intros x. destruct (id x =? j); [|reflexivity].
    destruct (assignAll_key cs x) as (_ & Ku & Kd). rewrite Ku, Kd. reflexivity.
Qed.

Lemma yesterdayStr_previous_day (tz now : Z) :
  toLocaleDateString_Jakarta (setDate tz now (getDate tz now - 1)) =
  formatYMD (jakartaDay now - 1).
Proof.
  rewrite setDate_previous. unfold toLocaleDateString_Jakarta. f_equal.
  unfold_time. Z.to_euclidean_division_equations. lia.
Qed.

Lemma setHours_on_jakarta_host (now : Z) :
  setHours jakartaOffset (jakartaTimeOf jakartaOffset now) 4 0 0 0 =
  jakartaInstant (jakartaDay now) 4 0.
Proof.
  unfold setHours. rewrite Day_jakartaTime. unfold_time. lia.
Qed.

(** On a host running on UTC the same expression denotes 04:00 UTC,
    which is 11:00 in Jakarta. *)
Lemma setHours_on_utc_host (now : Z) :
  setHours 0 (jakartaTimeOf 0 now) 4 0 0 0 = jakartaInstant (jakartaDay now) 11 0.
Proof.
  unfold setHours. rewrite Day_jakartaTime. unfold_time. lia.
Qed.

Lemma resolveBusinessDay_after_4 (now : Z) :
  4 <= jakartaHour now -> resolveBusinessDay now = jakartaDay now.
Proof.
  intros H. unfold resolveBusinessDay.
  destruct (Z.ltb_spec (jakartaHour now) 4); [lia | reflexivity].
Qed.

Lemma resolveBusinessDay_before_4 (now : Z) :
  jakartaHour now < 4 -> resolveBusinessDay now = jakartaDay now - 1.
Proof.
  intros H. unfold resolveBusinessDay.
  destruct (Z.ltb_spec (jakartaHour now) 4); [reflexivity | lia].
Qed.

(** What the sweep does when it fires. *)
Lemma today_route_sweep (tz now user : Z) (st : Store) (s : Attendance) :
  getAttendanceSessionsByUserAndDate user (getJakartaDate tz now) st = [] ->
  find isOpen
    (getAttendanceSessionsByUserAndDate user (formatYMD (jakartaDay now - 1)) st)
    = Some s ->
  4 <= jakartaHour now ->
  today_route tz now user st =
  ([], snd (updateAttendance (id s)
              [Set_checkOut (setHours tz (jakartaTimeOf tz now) 4 0 0 0);
               Set_notes (autoCloseNotes (notes s))] st)).
Proof.
  intros Hnone Hopen Hh. unfold today_route.
  rewrite Hnone. cbn [List.length Nat.eqb].
  rewrite yesterdayStr_previous_day, Hopen, getHours_jakartaTime.
  destruct (Z.geb_spec (jakartaHour now) 4); [reflexivity | lia].
Qed.

(** Once the day's only open session is closed, the today query of the
    same Jakarta calendar day leaves the table alone. *)
Lemma today_route_after_sweep (tz now now' user : Z) (st : Store)
    (s : Attendance) (c : Z) (n : string) :
  wellKeyed st -> singleOpen st ->
  getAttendanceSessionsByUserAndDate user (formatYMD (jakartaDay now)) st = [] ->
  find isOpen
    (getAttendanceSessionsByUserAndDate user (formatYMD (jakartaDay now - 1)) st)
    = Some s ->
  jakartaDay now' = jakartaDay now ->
  let st' := snd (updateAttendance (id s) [Set_checkOut c; Set_notes n] st) in
  snd (today_route tz now' user st') = st'.
Proof.
  intros Hwk Hso Hnone Hopen Hday st'.
  pose proof (activeSession_found _ _ _ _ Hopen) as (Hin & Hu & Hd & Hc).
  assert (Hys : forall day,
             getAttendanceSessionsByUserAndDate user day st' =
             map (fun r => if id r =? id s
                           then assignAll [Set_checkOut c; Set_notes n] r else r)
                 (getAttendanceSessionsByUserAndDate user day st)).
  { intros day. apply sessions_update. reflexivity. }
  unfold today_route. cbn [snd]. rewrite getJakartaDate_formatYMD.
  destruct (Z.lt_ge_cases (jakartaHour now') 4) as [Hlt | Hge].
  - rewrite resolveBusinessDay_before_4, Hday by exact Hlt.
    rewrite Hys.
    apply find_some in Hopen as [Hs _].
    destruct (getAttendanceSessionsByUserAndDate user
                (formatYMD (jakartaDay now - 1)) st); [contradiction|].
    reflexivity.
  - rewrite resolveBusinessDay_after_4, Hday by exact Hge.
    rewrite Hys, Hnone. cbn [map List.length Nat.eqb].
    rewrite yesterdayStr_previous_day, Hday, Hys.
    replace (find isOpen _) with (@None Attendance); [reflexivity|].
    symmetry. apply find_none_iff. intros y Hy.
    apply in_map_iff in Hy as (x & <- & Hx).
    apply sessions_In in Hx as (Hxin & Hxu & Hxd).
    destruct (id x =? id s) eqn:E.
    + reflexivity.
    + unfold isOpen. destruct (checkOut x) eqn:Hxc; [reflexivity|].
      assert (x = s) by (apply Hso; auto; congruence).
      subst x. rewrite Z.eqb_refl in E. discriminate.
Qed.




(** * Further properties of the code *)

(** ** Display of a duration *)

Lemma string_of_Z_parse (z : Z) :
  NilZero.int_of_string (string_of_Z z) = Some (Z.to_int z).
Proof.
  unfold string_of_Z. apply NilZero.isi.
  - destruct z; simpl; try discriminate.
    intros H. injection H as H. apply (Unsigned.to_uint_nonnil _ H).
  - destruct z; simpl; try discriminate.
    intros H. injection H as H. apply (Unsigned.to_uint_nonnil _ H).
Qed.

Lemma string_of_Z_inj (a b : Z) : string_of_Z a = string_of_Z b -> a = b.
Proof.
  intros H.
  assert (E : Some (Z.to_int a) = Some (Z.to_int b)).
  { rewrite <- !string_of_Z_parse, H. reflexivity. }
  injection E as E.
  rewrite <- (DecimalZ.of_to a), <- (DecimalZ.of_to b), E. reflexivity.
Qed.

Lemma lacks_digits (c : ascii) (d : Decimal.uint) :
  (forall k, In k ["0"; "1"; "2"; "3"; "4"; "5"; "6"; "7"; "8"; "9"]%char -> k <> c) ->
  lacks c (NilEmpty.string_of_uint d).
Proof.
  intros H. induction d; simpl; auto; (split; [apply H; simpl; tauto | exact IHd]).
Qed.

Lemma lacks_string_of_Z (c : ascii) (z : Z) :
  0 <= z ->
  (forall k, In k ["0"; "1"; "2"; "3"; "4"; "5"; "6"; "7"; "8"; "9"]%char -> k <> c) ->
  lacks c (string_of_Z z).
Proof.
  intros Hz H. unfold string_of_Z.
  destruct z as [|p|p]; [| |lia].
  - simpl. split; [apply H; simpl; tauto | exact I].
  - simpl. unfold NilZero.string_of_uint.
    destruct (Pos.to_uint p) eqn:E;
      try (rewrite <- E; apply lacks_digits; exact H).
    simpl. split; [apply H; simpl; tauto | exact I].
Qed.

Lemma append_split (c : ascii) (a b r r' : string) :
  lacks c a -> lacks c b ->
  a ++ String c r = b ++ String c r' -> a = b /\ r = r'.
Proof.
  revert b. induction a as [|x a IH]; intros [|y b] Ha Hb H; simpl in *.
  - injection H as H. auto.
  - injection H as H1 H2. destruct Hb as [Hy _]. congruence.
  - injection H as H1 H2. destruct Ha as [Hx _]. congruence.
  - injection H as H1 H2. destruct Ha as [_ Ha], Hb as [_ Hb].
    destruct (IH b Ha Hb H2) as [-> ->]. subst. auto.
Qed.

Lemma length_append (a b : string) :
  String.length (a ++ b) = (String.length a + String.length b)%nat.
Proof. induction a; simpl; auto. Qed.

Lemma digit_not_j k :
  In k ["0"; "1"; "2"; "3"; "4"; "5"; "6"; "7"; "8"; "9"]%char -> k <> "j"%char.
Proof. simpl. intros H; repeat destruct H as [<- | H]; try discriminate; contradiction. Qed.

Lemma digit_not_m k :
  In k ["0"; "1"; "2"; "3"; "4"; "5"; "6"; "7"; "8"; "9"]%char -> k <> "m"%char.
Proof. simpl. intros H; repeat destruct H as [<- | H]; try discriminate; contradiction. Qed.

(** X1. Durations of zero or fewer minutes, and only they, are displayed
    as "-"; two different positive durations are never displayed alike
    (the hours and the minutes below 60 can be read back from the text). *)
Theorem formatDuration_faithful :
  (forall minutes, formatDuration minutes = "-" <-> minutes <= 0) /\
  (forall m1 m2, 0 < m1 -> 0 < m2 -> m1 <> m2 ->
                 formatDuration m1 <> formatDuration m2).
Proof.
  split.
  - intros minutes. unfold formatDuration.
    destruct (Z.leb_spec minutes 0) as [H | H].
    + split; auto.
    + split; [|lia]. intros E. apply (f_equal String.length) in E.
      rewrite !length_append in E. simpl in E. lia.
  - intros m1 m2 H1 H2 Hne. unfold formatDuration.
    destruct (Z.leb_spec m1 0); [lia|]. destruct (Z.leb_spec m2 0); [lia|].
    cbv zeta. intros E. apply Hne.
    assert (Hh1 : 0 <= m1 / 60) by (apply Z.div_pos; lia).
    assert (Hh2 : 0 <= m2 / 60) by (apply Z.div_pos; lia).
    assert (Hm1 : 0 <= m1 mod 60 < 60) by (apply Z.mod_pos_bound; lia).
    assert (Hm2 : 0 <= m2 mod 60 < 60) by (apply Z.mod_pos_bound; lia).
    change (string_of_Z (m1 / 60) ++
              String "j" (" " ++ string_of_Z (m1 mod 60) ++ "m") =
            string_of_Z (m2 / 60) ++
              String "j" (" " ++ string_of_Z (m2 mod 60) ++ "m")) in E.
    apply append_split in E as [Eh Er];
      try (apply lacks_string_of_Z; [assumption | exact digit_not_j]).
    simpl in Er. injection Er as Er.
    apply append_split in Er as [Em _];
      try (apply lacks_string_of_Z; [lia | exact digit_not_m]).
    apply string_of_Z_inj in Eh. apply string_of_Z_inj in Em.
    rewrite (Z.div_mod m1 60), (Z.div_mod m2 60) by lia. lia.
Qed.

Lemma formatDuration_faithful_witness :
  formatDuration 125 = "2j 5m" /\ formatDuration 65 = "1j 5m" /\
  formatDuration 125 <> formatDuration 65.
Proof.
  split; [vm_compute; reflexivity|]. split; [vm_compute; reflexivity|].
  apply (proj2 formatDuration_faithful 125 65); lia.
Defined.

(** ** More on the aggregator *)

(** X2. The work and break totals of two lists put together are the sums
    of their totals, an empty list gives three zeros, and the net total
    of the whole never exceeds the sum of the net totals of the parts. *)
Theorem calculateDailyTotal_app (l1 l2 : list Attendance) :
  calculateDailyTotal [] = mkDailyTotal 0 0 0 /\
  totalWorkMins (calculateDailyTotal (l1 ++ l2)%list) =
    totalWorkMins (calculateDailyTotal l1) + totalWorkMins (calculateDailyTotal l2) /\
  totalBreakMins (calculateDailyTotal (l1 ++ l2)%list) =
    totalBreakMins (calculateDailyTotal l1) + totalBreakMins (calculateDailyTotal l2) /\
  netWorkMins (calculateDailyTotal (l1 ++ l2)%list) <=
    netWorkMins (calculateDailyTotal l1) + netWorkMins (calculateDailyTotal l2).
Proof.
  rewrite !calculateDailyTotal_aggregate. unfold aggregate.
  cbn [totalWorkMins totalBreakMins netWorkMins].
  assert (S : forall f, sumZ (map f (l1 ++ l2)%list) =
                        sumZ (map f l1) + sumZ (map f l2)).
  { intros f. induction l1 as [|x l IH]; simpl; [reflexivity|].
    simpl in IH. rewrite IH. lia. }
  rewrite !S. split; [reflexivity|]. repeat split; lia.
Qed.

Lemma quot_nonneg (a b : Z) : a <= b -> 0 <= minutesBetween a b.
Proof. intros H. unfold minutesBetween. apply Z.quot_pos; lia. Qed.

Lemma wellOrdered_session (s : Attendance) :
  wellOrdered s ->
  0 <= spec_sessionWork s /\ 0 <= spec_sessionBreak s /\
  spec_sessionWork s <= calculateDuration (checkIn s) (checkOut s).
Proof.
  intros (Hw & Hb & Hp).
  unfold spec_sessionWork, spec_sessionBreak, calculateDuration,
    differenceInMinutes, msPerMinute.
  fold (minutesBetween).
  destruct (checkIn s) as [i|], (checkOut s) as [o|],
    (breakStart s) as [b|], (breakEnd s) as [e|],
    (permitExitAt s) as [x|], (permitResumeAt s) as [r|];
    repeat match goal with
           | |- context [Z.quot (?q - ?p) 60000] =>
               change (Z.quot (q - p) 60000) with (minutesBetween p q)
           end;
    try (pose proof (quot_nonneg i o (Hw i o eq_refl eq_refl)));
    try (pose proof (quot_nonneg b e (Hb b e eq_refl eq_refl)));
    try (pose proof (quot_nonneg x r (Hp x r eq_refl eq_refl)));
    lia.
Qed.

(** X3. When every session's instants come in their natural order
    (check-in before check-out, break start before break end, permit
    exit before permit resume), the work and break totals are not
    negative, the work total is at most the sum of the check-in to
    check-out durations, and the net total is at most the work total. *)
Theorem calculateDailyTotal_bounds (records : list Attendance) :
  Forall wellOrdered records ->
  0 <= totalWorkMins (calculateDailyTotal records) /\
  0 <= totalBreakMins (calculateDailyTotal records) /\
  totalWorkMins (calculateDailyTotal records) <=
    sumZ (map (fun s => calculateDuration (checkIn s) (checkOut s)) records) /\
  0 <= netWorkMins (calculateDailyTotal records) <=
    totalWorkMins (calculateDailyTotal records).
Proof.
  intros H. rewrite calculateDailyTotal_aggregate. unfold aggregate.
  cbn [totalWorkMins totalBreakMins netWorkMins].
  assert (B : 0 <= sumZ (map spec_sessionWork records) /\
              0 <= sumZ (map spec_sessionBreak records) /\
              sumZ (map spec_sessionWork records) <=
              sumZ (map (fun s => calculateDuration (checkIn s) (checkOut s))
                        records)).
  { induction H as [|s l Hs Hl IH]; simpl; [lia|].
    destruct (wellOrdered_session s Hs) as (A1 & A2 & A3). lia. }
  lia.
Qed.

Lemma calculateDailyTotal_bounds_witness :
  Forall wellOrdered [scenarioSession 1] /\
  0 <= netWorkMins (calculateDailyTotal [scenarioSession 1]) <=
    totalWorkMins (calculateDailyTotal [scenarioSession 1]).
Proof.
  assert (H : Forall wellOrdered [scenarioSession 1]).
  { constructor; [|constructor]. repeat split; cbn; intros; try discriminate.
    - injection H as <-. injection H0 as <-. vm_compute. discriminate.
    - injection H as <-. injection H0 as <-. vm_compute. discriminate. }
  split; [exact H|]. apply (calculateDailyTotal_bounds [scenarioSession 1] H).
Defined.

(** ** What the routes write *)

Lemma opt_forallb {A : Type} (p : Column -> bool) (column : A -> Column)
    (value : option A) :
  (forall v, p (column v) = true) -> forallb p (opt column value) = true.
Proof. intros H. destruct value; simpl; [rewrite H|]; reflexivity. Qed.

(** Every operation leaves the table as it was, inserts a session with a
    check-in instant through creation columns only, or writes update
    columns on a session of the table. *)
Lemma perform_columns (tz : Zone) (now user : Z) (op : Operation) (st : Store) :
  perform tz now user op st = st \/
  (exists u day cs t,
     perform tz now user op st = snd (createAttendance u day cs st) /\
     forallb creationColumn cs = true /\ In (Set_checkIn t) cs) \/
  (exists s cs,
     In s (rows st) /\
     perform tz now user op st = snd (updateAttendance (id s) cs st) /\
     forallb updateColumn cs = true).
Proof.
  destruct op as [req|req|req|req|req| |]; unfold perform.
  - unfold clockIn.
    destruct (find isOpen _); [auto|]. destruct (_ >? 5); [auto|].
    right; left. rewrite snd_let. do 4 eexists. split; [reflexivity|].
    split.
    + rewrite !forallb_app, !opt_forallb by reflexivity. reflexivity.
    + left. reflexivity.
  - unfold clockOut.
    destruct (find isOpen _) as [s|] eqn:E; [|auto].
    apply activeSession_found in E as (H1 & _).
    right; right. rewrite snd_let. do 2 eexists. split; [exact H1|].
    split; [reflexivity|].
    rewrite !forallb_app, !opt_forallb by reflexivity. reflexivity.
  - unfold breakStart_route.
    destruct (find isOpen _) as [s|] eqn:E; [|auto].
    apply activeSession_found in E as (H1 & _).
    right; right. rewrite snd_let. do 2 eexists. split; [exact H1|].
    split; [reflexivity|].
    rewrite !forallb_app, !opt_forallb by reflexivity. reflexivity.
  - unfold breakEnd_route.
    destruct (find isOpen _) as [s|] eqn:E; [|auto].
    apply activeSession_found in E as (H1 & _).
    right; right. rewrite snd_let. do 2 eexists. split; [exact H1|].
    split; [reflexivity|].
    rewrite !forallb_app, !opt_forallb by reflexivity. reflexivity.
  - unfold permit, getAttendanceByUserAndDate.
    destruct (find isOpen _) as [s|] eqn:E.
    + apply activeSession_found in E as (H1 & _).
      right; right. rewrite snd_let. do 2 eexists. split; [exact H1|].
      split; [reflexivity|].
      rewrite !forallb_app, !opt_forallb by reflexivity. reflexivity.
    + right; left. rewrite snd_let. do 4 eexists. split; [reflexivity|].
      split.
      * rewrite !forallb_app, !opt_forallb by reflexivity. reflexivity.
      * apply in_or_app. right. apply in_or_app. right.
        apply in_or_app. right. left. reflexivity.
  - unfold resume.
    destruct (_ =? _)%nat; [auto|]. destruct (find isOpen _); [auto|].
    right; left. rewrite snd_let. do 4 eexists. split; [reflexivity|].
    split; [reflexivity|]. left. reflexivity.
  - unfold today_route. cbn [snd].
    destruct (_ =? _)%nat; [|auto].
    destruct (find isOpen _) as [s|] eqn:E; [|auto].
    destruct (_ >=? 4); [|auto].
    apply activeSession_found in E as (H1 & _).
    right; right. do 2 eexists. split; [exact H1|].
    split; reflexivity.
Qed.

Lemma assignAll_updateColumn (cs : list Column) :
  forallb updateColumn cs = true ->
  forall r, checkIn (assignAll cs r) = checkIn r /\
            sessionNumber (assignAll cs r) = sessionNumber r /\
            shift (assignAll cs r) = shift r /\
            permitResumeAt (assignAll cs r) = permitResumeAt r.
Proof.
  unfold assignAll. induction cs as [|c cs IH]; simpl; intros H r; auto.
  apply andb_true_iff in H as [Hc Hcs].
  destruct (IH Hcs (assign c r)) as (H1 & H2 & H3 & H4).
  rewrite H1, H2, H3, H4.
  destruct c; simpl in *; try discriminate; auto.
Qed.

Lemma assignAll_creationColumn (cs : list Column) :
  forallb creationColumn cs = true ->
  forall r, checkOut (assignAll cs r) = checkOut r /\
            permitResumeAt (assignAll cs r) = permitResumeAt r.
Proof.
  unfold assignAll. induction cs as [|c cs IH]; simpl; intros H r; auto.
  apply andb_true_iff in H as [Hc Hcs].
  destruct (IH Hcs (assign c r)) as (H1 & H2).
  rewrite H1, H2.
  destruct c; simpl in *; try discriminate; auto.
Qed.

Lemma assign_checkIn_kept (c : Column) (r : Attendance) :
  checkIn r <> None -> checkIn (assign c r) <> None.
Proof. destruct c; simpl; auto; discriminate. Qed.

Lemma assignAll_checkIn_kept (cs : list Column) :
  forall r, checkIn r <> None -> checkIn (assignAll cs r) <> None.
Proof.
  unfold assignAll. induction cs as [|c cs IH]; simpl; intros r H; auto.
  apply IH, assign_checkIn_kept, H.
Qed.

Lemma assignAll_checkIn_set (cs : list Column) (t : Z) :
  In (Set_checkIn t) cs -> forall r, checkIn (assignAll cs r) <> None.
Proof.
  induction cs as [|c cs IH]; simpl; [contradiction|].
  intros [-> | Hin] r.
  - change (checkIn (assignAll cs (assign (Set_checkIn t) r)) <> None).
    apply assignAll_checkIn_kept. simpl. discriminate.
  - apply (IH Hin (assign c r)).
Qed.

(** X4. No operation deletes a session or rewrites what identifies it:
    a row found under an id before an operation is found under it
    afterwards, for the same user and date, with the same session
    number, check-in instant, shift and permitResumeAt. *)
Theorem rows_are_kept (tz now user : Z) (op : Operation) (st : Store)
    (i : Z) (r : Attendance) :
  rowById i st = Some r ->
  exists r',
    rowById i (perform tz now user op st) = Some r' /\
    userId r' = userId r /\ date r' = date r /\
    sessionNumber r' = sessionNumber r /\ checkIn r' = checkIn r /\
    shift r' = shift r /\ permitResumeAt r' = permitResumeAt r.
Proof.
  intros Hr.
  destruct (perform_columns tz now user op st)
    as [-> | [(u & day & cs & t & -> & _) | (s & cs & Hin & -> & Hcs)]].
  - exists r. repeat split; auto.
  - exists r. split; [apply rowById_create; exact Hr|]. repeat split; auto.
  - destruct (Z.eq_dec i (id s)) as [-> | Hne].
    + exists (assignAll cs r).
      split; [apply rowById_update_same; exact Hr|].
      destruct (assignAll_key cs r) as (_ & K2 & K3).
      destruct (assignAll_updateColumn cs Hcs r) as (U1 & U2 & U3 & U4).
      repeat split; auto.
    + exists r. split; [rewrite rowById_update_other; auto|].
      repeat split; auto.
Qed.

Lemma rows_are_kept_witness :
  let st := workedSessions 0 1 in
  exists r',
    rowById 1 (perform 0 (jakartaInstant leapDay 9 0) 1 (Permit sickNote) st)
      = Some r' /\
    sessionNumber r' = 1 /\ checkIn r' = Some (jakartaInstant leapDay 6 0).
Proof.
  cbv zeta.
  edestruct (rows_are_kept 0 (jakartaInstant leapDay 9 0) 1 (Permit sickNote)
               (workedSessions 0 1) 1) as (r' & H1 & _ & _ & H4 & H5 & _).
  - vm_compute. reflexivity.
  - exists r'. split; [exact H1|]. split; [rewrite H4 | rewrite H5]; reflexivity.
Defined.

(** X5. In every table the routes produce, each session has a check-in
    instant and no permitResumeAt; the aggregator's permit adjustment
    therefore never applies, and the work total of any such sessions is
    the plain sum of their check-in to check-out durations. *)
Theorem reachable_rows_plain_work (st : Store) :
  Reachable st ->
  (forall r, In r (rows st) -> checkIn r <> None /\ permitResumeAt r = None) /\
  (forall records, incl records (rows st) ->
     totalWorkMins (calculateDailyTotal records) =
     sumZ (map (fun s => calculateDuration (checkIn s) (checkOut s)) records)).
Proof.
  intros HR.
  assert (Hrows : forall r, In r (rows st) ->
                            checkIn r <> None /\ permitResumeAt r = None).
  { induction HR as [|tz now user op st HR IH].
    - intros r [].
    - destruct (perform_columns tz now user op st)
        as [-> | [(u & day & cs & t & -> & Hcs & Ht) | (s & cs & Hin & -> & Hcs)]].
      + exact IH.
      + unfold createAttendance. cbn [snd rows]. intros r Hr.
        apply in_app_iff in Hr as [Hr | [<- | []]]; [apply IH; exact Hr|].
        split; [apply (assignAll_checkIn_set cs t Ht)|].
        rewrite (proj2 (assignAll_creationColumn cs Hcs _)). reflexivity.
      + unfold updateAttendance. cbn [snd rows]. intros r Hr.
        apply in_map_iff in Hr as (x & <- & Hx).
        destruct (IH x Hx) as [I1 I2].
        destruct (id x =? id s); [|auto].
        destruct (assignAll_updateColumn cs Hcs x) as (U1 & _ & _ & U4).
        rewrite U1, U4. auto. }
  split; [exact Hrows|].
  intros records Hincl. rewrite calculateDailyTotal_aggregate.
  unfold aggregate. cbn [totalWorkMins]. f_equal.
  apply map_ext_in. intros s Hs.
  destruct (Hrows s (Hincl s Hs)) as [_ Hp].
  unfold spec_sessionWork, calculateDuration, differenceInMinutes,
    minutesBetween, msPerMinute.
  rewrite Hp. destruct (checkIn s), (checkOut s), (permitExitAt s); reflexivity.
Qed.

Lemma reachable_rows_plain_work_witness :
  totalWorkMins (calculateDailyTotal (rows (workedSessions 0 3))) = 90.
Proof.
  assert (HR : Reachable (workedSessions 0 3)).
  { cbn [workedSessions]. repeat apply Reachable_perform. apply Reachable_empty. }
  rewrite (proj2 (reachable_rows_plain_work _ HR) _ (incl_refl _)).
  vm_compute. reflexivity.
Defined.


(** ** One open session per user and day *)

Lemma NoDup_all_equal {A : Type} (l : list A) :
  NoDup l -> (forall x y, In x l -> In y l -> x = y) -> (List.length l <= 1)%nat.
Proof.
  intros Hnd Heq. destruct l as [|a [|b l]]; simpl; try lia.
  exfalso. inversion Hnd as [|? ? Hnot _]; subst. apply Hnot.
  rewrite (Heq a b); simpl; auto.
Qed.

(** X6. In every table the routes produce, the sessions of a user and
    business date include at most one open session. *)
Theorem reachable_one_open_session (st : Store) (user : Z) (day : string) :
  Reachable st ->
  (List.length
     (filter isOpen (getAttendanceSessionsByUserAndDate user day st)) <= 1)%nat.
Proof.
  intros HR. destruct (Reachable_invariants st HR) as [[Hnd _] Hso].
  apply NoDup_all_equal.
  - apply NoDup_filter.
    apply (Permutation_NoDup
             (Permutation_sym (orderBySessionNumber_Permutation _))).
    apply NoDup_filter. apply (NoDup_map_inv id). exact Hnd.
  - intros x y Hx Hy.
    apply filter_In in Hx as [Hx Hox]. apply filter_In in Hy as [Hy Hoy].
    apply sessions_In in Hx as (Hx & Hxu & Hxd).
    apply sessions_In in Hy as (Hy & Hyu & Hyd).
    apply Hso; auto; try congruence; apply isOpen_true; assumption.
Qed.

Lemma reachable_one_open_session_witness :
  let st := perform 0 (jakartaInstant leapDay 8 0) 1 Resume (workedSessions 0 2) in
  (List.length
     (filter isOpen (getAttendanceSessionsByUserAndDate 1 "2024-02-29" st)) <= 1)%nat.
Proof.
  cbv zeta. apply reachable_one_open_session.
  cbn [workedSessions]. repeat apply Reachable_perform. apply Reachable_empty.
Defined.

(** ** Clock-out *)

Lemma sessions_nonempty (user : Z) (day : string) (st : Store) (s : Attendance) :
  In s (getAttendanceSessionsByUserAndDate user day st) ->
  (List.length (getAttendanceSessionsByUserAndDate user day st) =? 0)%nat = false.
Proof.
  destruct (getAttendanceSessionsByUserAndDate user day st); [contradiction|].
  reflexivity.
Qed.

(** X7. On a table the routes produced, a clock-out with an open session
    of the day stores [now] as its checkOut and leaves its check-in,
    break and status columns alone; the day then has no open session, so
    that on the same business date a further clock-out and a break-start
    are rejected with NoActiveSession while resume is accepted. *)
Theorem clockOut_closes_the_day (tz now user : Z) (req : Request) (st : Store)
    (s : Attendance) :
  Reachable st ->
  find isOpen
    (getAttendanceSessionsByUserAndDate user (getJakartaDate tz now) st) = Some s ->
  let st' := snd (clockOut tz now user req st) in
  (exists s',
     fst (clockOut tz now user req st) = Json (Some s') /\
     rowById (id s) st' = Some s' /\ checkOut s' = Some now /\
     checkIn s' = checkIn s /\ breakStart s' = breakStart s /\
     breakEnd s' = breakEnd s /\ status s' = status s) /\
  find isOpen
    (getAttendanceSessionsByUserAndDate user (getJakartaDate tz now) st') = None /\
  (forall now' req', getJakartaDate tz now' = getJakartaDate tz now ->
     clockOut tz now' user req' st' = (Rejected NoActiveSession noActiveMessage, st') /\
     breakStart_route tz now' user req' st'
       = (Rejected NoActiveSession noActiveMessage, st') /\
     exists a st'', resume tz now' user st' = (Json (Some a), st'')).
Proof.
  intros HR Hs st'.
  destruct (Reachable_invariants st HR) as [Hwk Hso].
  pose proof (activeSession_found _ _ _ _ Hs) as (Hin & Hu & Hd & Hc).
  pose proof (rowById_of_In st s Hwk Hin) as Hrow.
  set (cs := ([Set_checkOut now] ++ opt Set_checkOutPhoto (photoFileId req) ++
              opt Set_checkOutLocation (location req))%list).
  assert (Hst' : st' = snd (updateAttendance (id s) cs st)).
  { subst st'. unfold clockOut. rewrite Hs, snd_let. reflexivity. }
  assert (Hfields : checkOut (assignAll cs s) = Some now /\
                    checkIn (assignAll cs s) = checkIn s /\
                    breakStart (assignAll cs s) = breakStart s /\
                    breakEnd (assignAll cs s) = breakEnd s /\
                    status (assignAll cs s) = status s /\
                    forallb keepsOrder cs = true).
  { subst cs. destruct (photoFileId req), (location req); cbn; auto 10. }
  destruct Hfields as (F1 & F2 & F3 & F4 & F5 & F6).
  pose proof (rowById_update_same (id s) cs st s Hrow) as Hupd.
  assert (Hnone : find isOpen
            (getAttendanceSessionsByUserAndDate user (getJakartaDate tz now) st')
            = None).
  { rewrite Hst', sessions_update by exact F6.
    apply find_none_iff. intros y Hy.
    apply in_map_iff in Hy as (x & <- & Hx).
    apply sessions_In in Hx as (Hxin & Hxu & Hxd).
    destruct (id x =? id s) eqn:E.
    - apply Z.eqb_eq in E.
      assert (x = s) by (apply (same_key_same_row (rows st)); auto; apply Hwk).
      subst x. unfold isOpen. rewrite F1. reflexivity.
    - unfold isOpen. destruct (checkOut x) eqn:Hxc; [reflexivity|].
      assert (x = s) by (apply Hso; auto; congruence).
      subst x. rewrite Z.eqb_refl in E. discriminate. }
  split; [|split; [exact Hnone|]].
  - exists (assignAll cs s). unfold clockOut. rewrite Hs, fst_let.
    fold cs. unfold updateAttendance at 1. cbn [fst].
    unfold updateAttendance in Hupd. cbn [snd] in Hupd. rewrite Hupd.
    rewrite Hst'. unfold updateAttendance. cbn [snd].
    repeat split; auto.
  - intros now' req' Hday.
    unfold clockOut, breakStart_route, resume. rewrite Hday, Hnone.
    split; [reflexivity|]. split; [reflexivity|].
    rewrite (sessions_nonempty user _ st' (assignAll cs s)).
    + destruct (createAttendance _ _ _ _) as [a0 st0]. eauto.
    + rewrite Hst', sessions_update by exact F6.
      apply in_map_iff. exists s. rewrite Z.eqb_refl.
      split; [reflexivity|]. apply sessions_In. auto.
Qed.

Lemma clockOut_closes_the_day_witness :
  let st := perform 0 (jakartaInstant leapDay 6 0) 1 (ClockIn onShift1) emptyStore in
  let st' := snd (clockOut 0 (jakartaInstant leapDay 15 0) 1 noBody st) in
  clockOut 0 (jakartaInstant leapDay 16 0) 1 noBody st'
    = (Rejected NoActiveSession noActiveMessage, st').
Proof.
  cbv zeta.
  edestruct (clockOut_closes_the_day 0 (jakartaInstant leapDay 15 0) 1 noBody
               (perform 0 (jakartaInstant leapDay 6 0) 1 (ClockIn onShift1)
                  emptyStore)) as (_ & _ & H).
  - apply Reachable_perform, Reachable_empty.
  - vm_compute. reflexivity.
  - assert (D : getJakartaDate 0 (jakartaInstant leapDay 16 0) =
                getJakartaDate 0 (jakartaInstant leapDay 15 0))
      by (vm_compute; reflexivity).
    destruct (H (jakartaInstant leapDay 16 0) noBody D) as [H1 _]. exact H1.
Defined.

(** ** Clock-in *)

Lemma sessions_empty (user : Z) (day : string) (st : Store) :
  (forall r, In r (rows st) -> userId r = user -> date r <> day) ->
  getAttendanceSessionsByUserAndDate user day st = [].
Proof.
  intros H.
  destruct (getAttendanceSessionsByUserAndDate user day st) as [|x l] eqn:E;
    [reflexivity|].
  assert (Hx : In x (getAttendanceSessionsByUserAndDate user day st))
    by (rewrite E; left; reflexivity).
  apply sessions_In in Hx as (Hin & Hu & Hd). exfalso. apply (H x Hin Hu Hd).
Qed.

Lemma sessions_create_length (user : Z) (day : string) (cs : list Column)
    (st : Store) :
  List.length (getAttendanceSessionsByUserAndDate user day
                 (snd (createAttendance user day cs st))) =
  S (List.length (getAttendanceSessionsByUserAndDate user day st)).
Proof.
  unfold getAttendanceSessionsByUserAndDate, createAttendance. cbn [snd rows].
  rewrite !(Permutation_length (orderBySessionNumber_Permutation _)).
  rewrite filter_app, length_app. cbn [filter].
  destruct (assignAll_key cs (defaultRow (nextId st) user day)) as (_ & Ku & Kd).
  rewrite Ku, Kd. cbn [userId date defaultRow].
  rewrite Z.eqb_refl, String.eqb_refl. simpl. lia.
Qed.

(** X8. The first clock-in of a business date is always accepted,
    whatever the user's sessions of other dates look like, open ones
    included: it appends an open session numbered 1.  Any further
    clock-in on that business date is then rejected as a conflict. *)
Theorem clockIn_first_of_day (tz now user : Z) (req : Request) (st : Store) :
  (forall r, In r (rows st) -> userId r = user ->
             date r <> getJakartaDate tz now) ->
  exists a,
    clockIn tz now user req st =
      (Json (Some a), mkStore (rows st ++ [a])%list (nextId st + 1)) /\
    sessionNumber a = 1 /\ checkIn a = Some now /\ checkOut a = None /\
    (forall now' req', getJakartaDate tz now' = getJakartaDate tz now ->
       exists message,
         clockIn tz now' user req' (mkStore (rows st ++ [a])%list (nextId st + 1))
         = (Rejected SessionConflict message,
            mkStore (rows st ++ [a])%list (nextId st + 1))).
Proof.
  intros H. pose proof (sessions_empty user _ st H) as He.
  destruct (clockIn tz now user req st) as [resp st'] eqn:E.
  assert (Hresp : exists a, resp = Json (Some a)).
  { revert E. unfold clockIn. rewrite He. cbn [find List.length].
    change (Z.of_nat 0 + 1 >? 5) with false. cbv iota.
    destruct (createAttendance _ _ _ _) as [a0 st0]. intros E.
    injection E as <- _. eauto. }
  destruct Hresp as [a ->].
  pose proof (clockIn_created tz now user req st a st' E)
    as (_ & _ & Hst & _ & Hu & Hd & Hci & Hco & Hn & _).
  rewrite He in Hn. cbn in Hn. subst st'.
  exists a. split; [reflexivity|]. repeat split; auto.
  intros now' req' Hday.
  destruct (activeSession_exists user (getJakartaDate tz now')
              (mkStore (rows st ++ [a])%list (nextId st + 1)) a)
    as [x Hx]; auto.
  - cbn [rows]. apply in_or_app. right. left. reflexivity.
  - congruence.
  - unfold clockIn. rewrite Hx. eauto.
Qed.

Lemma clockIn_first_of_day_witness :
  let st := staleStore 0 in
  exists a st',
    clockIn 0 (jakartaInstant (leapDay + 1) 6 0) 1 onShift1 st
      = (Json (Some a), st') /\ sessionNumber a = 1.
Proof.
  cbv zeta.
  destruct (clockIn_first_of_day 0 (jakartaInstant (leapDay + 1) 6 0) 1 onShift1
              (staleStore 0)) as (a & H1 & H2 & _).
  - vm_compute. intros r [<- | []] _. discriminate.
  - exists a. eexists. split; [exact H1 | exact H2].
Defined.

(** X9. A clock-in that is accepted adds exactly one session to the day,
    numbers it with the day's new count, and never brings the day above
    five sessions. *)
Theorem clockIn_respects_cap (tz now user : Z) (req : Request) (st : Store)
    (a : Attendance) (st' : Store) :
  clockIn tz now user req st = (Json (Some a), st') ->
  let day := getJakartaDate tz now in
  List.length (getAttendanceSessionsByUserAndDate user day st') =
    S (List.length (getAttendanceSessionsByUserAndDate user day st)) /\
  sessionNumber a =
    Z.of_nat (List.length (getAttendanceSessionsByUserAndDate user day st')) /\
  (List.length (getAttendanceSessionsByUserAndDate user day st') <= 5)%nat.
Proof.
  intros E day.
  pose proof (clockIn_created tz now user req st a st' E)
    as (_ & Hlt & Hst & _ & Hu & Hd & _ & _ & Hn & _).
  fold day in Hn, Hlt, Hd.
  assert (Hlen : List.length (getAttendanceSessionsByUserAndDate user day st') =
                 S (List.length (getAttendanceSessionsByUserAndDate user day st))).
  { subst st'. unfold getAttendanceSessionsByUserAndDate. cbn [rows].
    rewrite !(Permutation_length (orderBySessionNumber_Permutation _)).
    rewrite filter_app, length_app. cbn [filter].
    rewrite Hu, Hd, Z.eqb_refl, String.eqb_refl. simpl. lia. }
  rewrite Hlen. split; [reflexivity|]. split; lia.
Qed.

Lemma clockIn_respects_cap_witness :
  exists a st',
    clockIn 0 (jakartaInstant leapDay 12 0) 1 onShift1 (workedSessions 0 4)
      = (Json (Some a), st') /\
    sessionNumber a = 5.
Proof.
  assert (E : exists a st',
             clockIn 0 (jakartaInstant leapDay 12 0) 1 onShift1 (workedSessions 0 4)
             = (Json (Some a), st'))
    by (eexists; eexists; vm_compute; reflexivity).
  destruct E as (a & st' & E). exists a, st'. split; [exact E|].
  destruct (clockIn_respects_cap 0 (jakartaInstant leapDay 12 0) 1 onShift1
              (workedSessions 0 4) a st' E) as (Hlen & H & _).
  rewrite H, Hlen. vm_compute. reflexivity.
Defined.

(** ** The business day *)

(** X10. Every instant from 04:00 Jakarta time of a calendar day up to,
    but not including, 04:00 of the next day belongs to that day's
    business date, so that a shift across midnight is not split, on
    every host whose clock can show the Jakarta wall clock reading of
    the instant and, before 04:00, the same reading a day earlier: on
    every host with a constant offset, and on a host with daylight
    saving away from the hour its clock skips. *)
Theorem business_day_window (tz : Zone) (day t : Z) :
  jakartaInstant day 4 0 <= t < jakartaInstant (day + 1) 4 0 ->
  readsBack tz (toLocaleString_Jakarta t) ->
  (jakartaHour t < 4 -> readsBack tz (toLocaleString_Jakarta t - msPerDay)) ->
  getJakartaDate tz t = formatYMD day.
Proof.
  intros H Hw Hw'. rewrite (getJakartaDate_readsBack tz t Hw Hw'). f_equal.
  unfold resolveBusinessDay.
  destruct (Z.ltb_spec (jakartaHour t) 4) as [Hlt | Hge];
    revert H; [revert Hlt | revert Hge]; clear Hw Hw';
    unfold_time; intros; Z.to_euclidean_division_equations; lia.
Qed.

Lemma business_day_window_witness :
  getJakartaDate helsinki2024 (jakartaInstant leapDay 23 0) = formatYMD leapDay /\
  getJakartaDate 0 (jakartaInstant (leapDay + 1) 3 0) = formatYMD leapDay.
Proof.
  split.
  - apply (business_day_window helsinki2024 leapDay (jakartaInstant leapDay 23 0)).
    + vm_compute. split; [discriminate | reflexivity].
    + unfold readsBack. vm_compute. reflexivity.
    + vm_compute. discriminate.
  - apply (business_day_window 0 leapDay (jakartaInstant (leapDay + 1) 3 0)).
    + vm_compute. split; [discriminate | reflexivity].
    + apply readsBack_fixedZone.
    + intros _. apply readsBack_fixedZone.
Defined.

(** ** The sweep reaches one day back *)

(** X11. On a table the routes produced, the today query leaves every
    session in place that belongs to another user, or is dated otherwise
    than the Jakarta calendar day before the query, or is closed: in
    particular a session left open two or more days ago stays open. *)
Theorem today_reaches_one_day_back (tz now user : Z) (st : Store)
    (r : Attendance) :
  Reachable st -> In r (rows st) ->
  userId r <> user \/ date r <> formatYMD (jakartaDay now - 1) \/
  checkOut r <> None ->
  rowById (id r) (snd (today_route tz now user st)) = Some r.
Proof.
  intros HR Hin Hcase.
  destruct (Reachable_invariants st HR) as [Hwk _].
  pose proof (rowById_of_In st r Hwk Hin) as Hrow.
  unfold today_route. cbn [snd].
  destruct (_ =? _)%nat; [|exact Hrow].
  rewrite yesterdayStr_previous_day.
  destruct (find isOpen _) as [s|] eqn:E; [|exact Hrow].
  destruct (_ >=? 4); [|exact Hrow].
  apply activeSession_found in E as (Hs & Hu & Hd & Hc).
  rewrite rowById_update_other; [exact Hrow|].
  intros Hid.
  assert (r = s) by (apply (same_key_same_row (rows st)); auto; apply Hwk).
  subst r. destruct Hcase as [H | [H | H]]; contradiction.
Qed.

Lemma today_reaches_one_day_back_witness :
  exists r,
    rowById 1 (staleStore 0) = Some r /\ checkOut r = None /\
    rowById 1 (snd (today_route 0 (jakartaInstant (leapDay + 2) 5 0) 1
                      (staleStore 0))) = Some r.
Proof.
  assert (E : exists r, rowById 1 (staleStore 0) = Some r /\ checkOut r = None /\
                        id r = 1 /\ date r = "2024-02-29")
    by (eexists; repeat split; vm_compute; reflexivity).
  destruct E as (r & Hr & Hc & Hid & Hd).
  exists r. split; [exact Hr|]. split; [exact Hc|].
  rewrite <- Hid at 1.
  apply (today_reaches_one_day_back 0 (jakartaInstant (leapDay + 2) 5 0) 1
           (staleStore 0) r).
  - apply Reachable_perform, Reachable_empty.
  - apply rowById_In in Hr. apply Hr.
  - right. left. rewrite Hd. vm_compute. discriminate.
Defined.

(** ** The dashboard counts sessions *)

Lemma resume_created (tz now user : Z) (st : Store) (a : Attendance)
    (st' : Store) :
  resume tz now user st = (Json (Some a), st') ->
  st' = mkStore (rows st ++ [a])%list (nextId st + 1) /\
  date a = getJakartaDate tz now /\
  (status a = "late" \/ status a = "present").
Proof.
  unfold resume.
  generalize (getJakartaDate tz now) as today. intros today.
  generalize (getAttendanceSessionsByUserAndDate user today st) as sessions.
  intros sessions.
  destruct (_ =? _)%nat; [discriminate|].
  destruct (find isOpen sessions); [discriminate|].
  generalize (getHours tz (jakartaTimeOf tz now) * 60 +
              getMinutes tz (jakartaTimeOf tz now)) as mins. intros mins.
  unfold createAttendance. cbv zeta. intros H. injection H as Ha Hst.
  subst a st'. split; [reflexivity|]. split; [reflexivity|].
  cbn. destruct (mins >? 420); auto.
Qed.

(** X12. The dashboard's presentToday counts sessions, not employees:
    every accepted clock-in with status present or late, and every
    accepted resume, raises it by one while totalEmployees stays as it
    is, also when the user was already counted. *)
Theorem presentToday_counts_sessions (tz now user : Z) (req : Request)
    (reqUser : option Users.User) (users : list Users.User) (st st' : Store)
    (a : Attendance) (stats : DashboardStats) :
  dashboardStats tz now reqUser users st = Some stats ->
  (clockIn tz now user req st = (Json (Some a), st') \/
   resume tz now user st = (Json (Some a), st')) ->
  status a = "present" \/ status a = "late" ->
  dashboardStats tz now reqUser users st' =
  Some (mkDashboardStats (totalEmployees stats) (presentToday stats + 1)).
Proof.
  intros Hstats Hop Hstatus.
  assert (Hshape : st' = mkStore (rows st ++ [a])%list (nextId st + 1) /\
                   date a = getJakartaDate tz now).
  { destruct Hop as [E | E].
    - apply clockIn_created in E. tauto.
    - apply resume_created in E. tauto. }
  destruct Hshape as [-> Hd].
  revert Hstats. unfold dashboardStats.
  destruct (Users.notAdmin reqUser); [discriminate|].
  cbv zeta. cbn [rows]. intros Hstats. injection Hstats as <-.
  cbn [totalEmployees presentToday].
  rewrite filter_app, length_app. cbn [filter].
  rewrite Hd, String.eqb_refl.
  assert (Hb : ((status a =? "present")%string || (status a =? "late")%string)
               = true).
  { destruct Hstatus as [-> | ->]; reflexivity. }
  rewrite Hb. cbn [andb List.length]. do 2 f_equal. lia.
Qed.

Lemma presentToday_counts_sessions_witness :
  let now := jakartaInstant leapDay 8 0 in
  let st := workedSessions 0 1 in
  dashboardStats 0 now (Some adminUser) [adminUser; employeeUser] st
    = Some (mkDashboardStats 1 1) /\
  dashboardStats 0 now (Some adminUser) [adminUser; employeeUser]
    (snd (resume 0 now 1 st)) = Some (mkDashboardStats 1 2).
Proof.
  cbv zeta. split; [vm_compute; reflexivity|].
  assert (E : exists a st',
             resume 0 (jakartaInstant leapDay 8 0) 1 (workedSessions 0 1)
             = (Json (Some a), st') /\ status a = "late")
    by (eexists; eexists; split; vm_compute; reflexivity).
  destruct E as (a & st' & E & Hs). rewrite E. cbn [snd].
  apply (presentToday_counts_sessions 0 (jakartaInstant leapDay 8 0) 1 noBody
           (Some adminUser) [adminUser; employeeUser] (workedSessions 0 1) st' a
           (mkDashboardStats 1 1)).
  - vm_compute. reflexivity.
  - right. exact E.
  - right. exact Hs.
Defined.

(** ** Announcements *)

(** X13. An announcement that the list route no longer returns at some
    instant is not returned at any later instant either; one without
    expiry is always returned, and one is dropped at the very instant it
    expires. *)
Theorem announcements_stay_expired (now now' : Z)
    (list : list Announcements.Announcement) (a : Announcements.Announcement)
    (later : Datatypes.list Announcements.Announcement) :
  now <= now' ->
  Announcements.listRoute true now' list = Some later ->
  exists earlier,
    Announcements.listRoute true now list = Some earlier /\
    (In a later -> In a earlier) /\
    (In a list -> Announcements.expiresAt a = None -> In a later) /\
    (Announcements.expiresAt a = Some now' -> ~ In a later).
Proof.
  intros Hle H. unfold Announcements.listRoute in *. cbn [negb] in *.
  injection H as <-. eexists. split; [reflexivity|].
  repeat split.
  - intros Hin. apply filter_In in Hin as [Hin Hb]. apply filter_In.
    split; [exact Hin|].
    destruct (Announcements.expiresAt a) as [e|]; [|reflexivity].
    apply Z.gtb_gt in Hb. apply Z.gtb_gt. lia.
  - intros Hin He. apply filter_In. rewrite He. auto.
  - intros He Hin. apply filter_In in Hin as [_ Hb]. rewrite He in Hb.
    apply Z.gtb_gt in Hb. lia.
Qed.

Lemma announcements_stay_expired_witness :
  let a := Announcements.mkAnnouncement 1 "Libur" "Kantor tutup" None
             (Some 2000) (Some 0) (Some 1) in
  Announcements.listRoute true 1000 [a] = Some [a] /\
  Announcements.listRoute true 2000 [a] = Some [].
Proof.
  cbv zeta. split; [reflexivity|].
  destruct (announcements_stay_expired 1000 2000
              [Announcements.mkAnnouncement 1 "Libur" "Kantor tutup" None
                 (Some 2000) (Some 0) (Some 1)]
              (Announcements.mkAnnouncement 1 "Libur" "Kantor tutup" None
                 (Some 2000) (Some 0) (Some 1)) [])
    as (earlier & _ & _ & _ & H); [lia | reflexivity |].
  reflexivity.
Defined.

(** ** Creating an employee *)

Lemma emptyToNull_truthy (v : option string) :
  truthy v = true -> emptyToNull v = v.
Proof.
  destruct v as [s|]; simpl; [|discriminate].
  destruct (s =? "")%string; [discriminate | reflexivity].
Qed.

Lemma emptyToNull_falsy (v : option string) :
  truthy v = false -> emptyToNull v = None.
Proof.
  destruct v as [s|]; simpl; [|reflexivity].
  destruct (s =? "")%string; [reflexivity | discriminate].
Qed.

Lemma emptyToNull_not_empty (v : option string) : emptyToNull v <> Some "".
Proof.
  destruct v as [s|]; simpl; [|discriminate].
  destruct (String.eqb_spec s ""); [discriminate | congruence].
Qed.

(** X14. Whatever the create-employee route hands to storage has a
    non-empty username, none of email, NIK, username and phone number is
    the empty string, and its password is the hash of the submitted
    password, or of "password123" when none was submitted; the request
    reaches storage exactly when an administrator sends a username, or a
    NIK together with the role "employee". *)
Theorem createUserRoute_sanitises (hashPassword : string -> string)
    (reqUser : option Users.User) (body : Form.t) :
  (forall userData,
     createUserRoute hashPassword reqUser body = ToStorage userData ->
     truthy (Form.username userData) = true /\
     Form.email userData <> Some "" /\ Form.nik userData <> Some "" /\
     Form.username userData <> Some "" /\ Form.phoneNumber userData <> Some "" /\
     Form.password userData =
       Some (hashPassword (orElse (Form.password body) "password123")) /\
     (truthy (Form.username body) = true ->
      Form.username userData = Form.username body) /\
     (truthy (Form.username body) = false ->
      Form.username userData = Form.nik body)) /\
  ((exists userData, createUserRoute hashPassword reqUser body = ToStorage userData)
   <->
   Users.notAdmin reqUser = false /\
   (truthy (Form.username body) = true \/
    (Form.role body = Some "employee" /\ truthy (Form.nik body) = true))).
Proof.
  unfold createUserRoute.
  destruct (Users.notAdmin reqUser).
  { split; [intros ? [=]|]. split; [intros [? [=]] | intros [[=] _]]. }
  cbv zeta. cbn [Form.email Form.nik Form.username Form.phoneNumber Form.role
                 Form.password Form.fullName Form.branch Form.position Form.shift].
  pose proof (emptyToNull_not_empty (Form.email body)) as He.
  pose proof (emptyToNull_not_empty (Form.nik body)) as Hn.
  pose proof (emptyToNull_not_empty (Form.phoneNumber body)) as Hp.
  assert (Hrole : forall b,
             match Form.role body with
             | Some r0 => (r0 =? "employee")%string
             | None => false
             end = b ->
             (b = true <-> Form.role body = Some "employee")).
  { intros b <-. destruct (Form.role body) as [r0|]; [|split; discriminate].
    destruct (String.eqb_spec r0 "employee"); split; congruence. }
  destruct (match Form.role body with
            | Some r0 => (r0 =? "employee")%string
            | None => false
            end) eqn:R; specialize (Hrole _ eq_refl);
  destruct (truthy (Form.username body)) eqn:TU;
  destruct (truthy (Form.nik body)) eqn:TN;
  rewrite ?(emptyToNull_truthy _ TU), ?(emptyToNull_falsy _ TU),
          ?(emptyToNull_truthy _ TN), ?(emptyToNull_falsy _ TN) in *;
  rewrite ?TU, ?TN; cbn [truthy andb negb];
  cbn [Form.email Form.nik Form.username Form.phoneNumber Form.role
       Form.password Form.fullName Form.branch Form.position Form.shift];
  rewrite ?TU, ?TN; cbn [truthy andb negb].
  all: split;
    [ intros userData E; try discriminate E; injection E as <-;
      cbn [Form.email Form.nik Form.username Form.phoneNumber Form.password];
      repeat split; auto; try discriminate; try congruence;
      try (intros C; rewrite C in *; discriminate)
    | split;
      [ intros [userData E];
        first [ discriminate E
              | split; [reflexivity|];
                first [ left; reflexivity
                      | right; split; [apply Hrole; reflexivity | reflexivity] ] ]
      | intros [_ [H | [H1 H2]]]; try discriminate;
        try (apply Hrole in H1; discriminate); eauto ] ].
Qed.


Lemma createUserRoute_sanitises_witness :
  let hash := fun p => "scrypt:" ++ p in
  let body := Form.mk (Some "") (Some "3201") (Some "") None (Some "employee")
                None (Some "Budi") None None (Some "Shift 1") in
  exists userData,
    createUserRoute hash (Some adminUser) body = ToStorage userData /\
    Form.username userData = Some "3201" /\
    Form.email userData <> Some "" /\
    Form.password userData = Some "scrypt:password123".
Proof.
  cbv zeta.
  destruct (createUserRoute_sanitises (fun p => "scrypt:" ++ p) (Some adminUser)
              (Form.mk (Some "") (Some "3201") (Some "") None (Some "employee")
                 None (Some "Budi") None None (Some "Shift 1")))
    as [Hdata Hiff].
  destruct (proj2 Hiff) as [userData E].
  { split; [reflexivity|]. right. split; reflexivity. }
  destruct (Hdata userData E) as (_ & He & _ & _ & _ & Hpw & _ & Hnik).
  exists userData. split; [exact E|]. split; [apply Hnik; reflexivity|].
  split; [exact He | exact Hpw].
Defined.

(** ** Permits *)

(** X15. A permit declared on a business date without sessions creates
    a session with the permit type as status, check-in [now], the
    default session number 1 and no checkOut: the session is open, so a
    clock-in on the same business date is then rejected as a conflict. *)
Theorem permit_on_empty_day (tz now user : Z) (req : Request) (st : Store)
    (type : string) :
  reqType req = Some type ->
  (forall r, In r (rows st) -> userId r = user ->
             date r <> getJakartaDate tz now) ->
  exists a,
    permit tz now user req st =
      (Json (Some a), mkStore (rows st ++ [a])%list (nextId st + 1)) /\
    status a = type /\ checkIn a = Some now /\ sessionNumber a = 1 /\
    notes a = reqNotes req /\ checkOut a = None /\ permitExitAt a = None /\
    (forall now' req', getJakartaDate tz now' = getJakartaDate tz now ->
       exists message,
         clockIn tz now' user req' (mkStore (rows st ++ [a])%list (nextId st + 1))
         = (Rejected SessionConflict message,
            mkStore (rows st ++ [a])%list (nextId st + 1))).
Proof.
  intros Ht H. pose proof (sessions_empty user _ st H) as He.
  unfold permit, getAttendanceByUserAndDate. rewrite He. cbn [find].
  unfold createAttendance. cbv zeta. rewrite Ht.
  set (a := assignAll _ _).
  assert (Hf : status a = type /\ checkIn a = Some now /\ sessionNumber a = 1 /\
               notes a = reqNotes req /\ checkOut a = None /\
               permitExitAt a = None /\ userId a = user /\
               date a = getJakartaDate tz now).
  { subst a. destruct (reqNotes req), (photoFileId req); cbn; auto 10. }
  destruct Hf as (F1 & F2 & F3 & F4 & F5 & F6 & F7 & F8).
  exists a. split; [reflexivity|]. repeat split; auto.
  intros now' req' Hday.
  destruct (activeSession_exists user (getJakartaDate tz now')
              (mkStore (rows st ++ [a])%list (nextId st + 1)) a)
    as [x Hx]; auto.
  - cbn [rows]. apply in_or_app. right. left. reflexivity.
  - congruence.
  - unfold clockIn. rewrite Hx. eauto.
Qed.

Lemma permit_on_empty_day_witness :
  exists a st',
    permit 0 (jakartaInstant leapDay 8 0) 1 sickNote emptyStore
      = (Json (Some a), st') /\
    status a = "sick" /\ checkOut a = None.
Proof.
  destruct (permit_on_empty_day 0 (jakartaInstant leapDay 8 0) 1 sickNote
              emptyStore "sick") as (a & H1 & H2 & _ & _ & _ & H6 & _).
  - reflexivity.
  - intros r [].
  - exists a. eexists. split; [exact H1|]. split; [exact H2 | exact H6].
Defined.

(** X16. On a table the routes produced, a permit declared while a
    session of the day is open closes that session: its checkOut and
    its permitExitAt both become [now], its status becomes the permit
    type, its check-in stays; the day then has no open session and a
    resume on the same business date is accepted. *)
Theorem permit_early_exit (tz now user : Z) (req : Request) (st : Store)
    (s : Attendance) (type : string) :
  Reachable st -> reqType req = Some type ->
  find isOpen
    (getAttendanceSessionsByUserAndDate user (getJakartaDate tz now) st) = Some s ->
  let st' := snd (permit tz now user req st) in
  (exists s',
     fst (permit tz now user req st) = Json (Some s') /\
     rowById (id s) st' = Some s' /\
     checkOut s' = Some now /\ permitExitAt s' = Some now /\
     status s' = type /\ checkIn s' = checkIn s /\
     sessionNumber s' = sessionNumber s) /\
  find isOpen
    (getAttendanceSessionsByUserAndDate user (getJakartaDate tz now) st') = None /\
  (forall now', getJakartaDate tz now' = getJakartaDate tz now ->
     exists a st'', resume tz now' user st' = (Json (Some a), st'')).
Proof.
  intros HR Ht Hs st'.
  destruct (Reachable_invariants st HR) as [Hwk Hso].
  pose proof (activeSession_found _ _ _ _ Hs) as (Hin & Hu & Hd & Hc).
  pose proof (rowById_of_In st s Hwk Hin) as Hrow.
  set (cs := (opt Set_status (reqType req) ++ opt Set_notes (reqNotes req) ++
              [Set_checkOut now] ++ opt Set_checkOutPhoto (photoFileId req) ++
              [Set_permitExitAt now])%list).
  assert (Hst' : st' = snd (updateAttendance (id s) cs st)).
  { subst st'. unfold permit, getAttendanceByUserAndDate.
    rewrite Hs, snd_let. reflexivity. }
  assert (Hfields : checkOut (assignAll cs s) = Some now /\
                    permitExitAt (assignAll cs s) = Some now /\
                    status (assignAll cs s) = type /\
                    checkIn (assignAll cs s) = checkIn s /\
                    sessionNumber (assignAll cs s) = sessionNumber s /\
                    forallb keepsOrder cs = true).
  { subst cs. rewrite Ht.
    destruct (reqNotes req), (photoFileId req); cbn; auto 10. }
  destruct Hfields as (F1 & F2 & F3 & F4 & F5 & F6).
  pose proof (rowById_update_same (id s) cs st s Hrow) as Hupd.
  assert (Hnone : find isOpen
            (getAttendanceSessionsByUserAndDate user (getJakartaDate tz now) st')
            = None).
  { rewrite Hst', sessions_update by exact F6.
    apply find_none_iff. intros y Hy.
    apply in_map_iff in Hy as (x & <- & Hx).
    apply sessions_In in Hx as (Hxin & Hxu & Hxd).
    destruct (id x =? id s) eqn:E.
    - apply Z.eqb_eq in E.
      assert (x = s) by (apply (same_key_same_row (rows st)); auto; apply Hwk).
      subst x. unfold isOpen. rewrite F1. reflexivity.
    - unfold isOpen. destruct (checkOut x) eqn:Hxc; [reflexivity|].
      assert (x = s) by (apply Hso; auto; congruence).
      subst x. rewrite Z.eqb_refl in E. discriminate. }
  split; [|split; [exact Hnone|]].
  - exists (assignAll cs s). unfold permit, getAttendanceByUserAndDate.
    rewrite Hs, fst_let. fold cs. unfold updateAttendance at 1. cbn [fst].
    unfold updateAttendance in Hupd. cbn [snd] in Hupd. rewrite Hupd.
    rewrite Hst'. unfold updateAttendance. cbn [snd].
    repeat split; auto.
  - intros now' Hday. unfold resume. rewrite Hday, Hnone.
    rewrite (sessions_nonempty user _ st' (assignAll cs s)).
    + destruct (createAttendance _ _ _ _) as [a0 st0]. eauto.
    + rewrite Hst', sessions_update by exact F6.
      apply in_map_iff. exists s. rewrite Z.eqb_refl.
      split; [reflexivity|]. apply sessions_In. auto.
Qed.

Lemma permit_early_exit_witness :
  let st := perform 0 (jakartaInstant leapDay 6 0) 1 (ClockIn onShift1) emptyStore in
  let now := jakartaInstant leapDay 10 0 in
  exists s',
    fst (permit 0 now 1 sickNote st) = Json (Some s') /\
    checkOut s' = Some now /\ permitExitAt s' = Some now /\ status s' = "sick".
Proof.
  cbv zeta.
  assert (E : exists s,
             find isOpen
               (getAttendanceSessionsByUserAndDate 1
                  (getJakartaDate 0 (jakartaInstant leapDay 10 0))
                  (perform 0 (jakartaInstant leapDay 6 0) 1 (ClockIn onShift1)
                     emptyStore)) = Some s)
    by (eexists; vm_compute; reflexivity).
  destruct E as [s Hs].
  destruct (permit_early_exit 0 (jakartaInstant leapDay 10 0) 1 sickNote
              (perform 0 (jakartaInstant leapDay 6 0) 1 (ClockIn onShift1)
                 emptyStore) s "sick"
              (Reachable_perform _ _ _ _ _ Reachable_empty) eq_refl Hs)
    as ((s' & H1 & _ & H3 & H4 & H5 & _) & _).
  exists s'. split; [exact H1|]. split; [exact H3|]. split; [exact H4 | exact H5].
Defined.
